(** * USFM converter: the conversion-and-validation pipeline

    A shallow embedding of [convertToUSFM]
    (src/components/USFMConverter.tsx, lines 59-181) together with the
    parts of the JavaScript runtime it relies on: [String.prototype.trim],
    [String.prototype.includes], [Array.prototype.join], the [RegExp]
    constructor and [String.prototype.match] with a global pattern, the
    [in] operator, property reads with optional chaining and [ToBoolean]
    on values produced by [Response.json()].

    Strings are [String.string]; every [ascii] stands for one UTF-16 code
    unit below 256, so that lengths, indices and regular expression
    matches count exactly what the JavaScript runtime counts. *)

From Stdlib Require Import String Ascii List ZArith Bool Arith Lia.
Import ListNotations.

Local Open Scope string_scope.
Local Open Scope list_scope.

(* ================================================================= *)
(** ** JavaScript strings *)

Module JSString.

(** Code units of [WhiteSpace] and [LineTerminator] (ECMA-262, 12.2 and
    12.3) below 256: TAB, LF, VT, FF, CR, SP and NBSP. These are the code
    units that [trim] removes. *)
Definition is_white_space (c : ascii) : bool :=
  match nat_of_ascii c with
  | 9 | 10 | 11 | 12 | 13 | 32 | 160 => true
  | _ => false
  end.

Fixpoint trimStart (s : string) : string :=
  match s with
  | EmptyString => EmptyString
  | String c s' => if is_white_space c then trimStart s' else s
  end.

Fixpoint trimEnd (s : string) : string :=
  match s with
  | EmptyString => EmptyString
  | String c s' =>
      match trimEnd s' with
      | EmptyString => if is_white_space c then EmptyString else String c EmptyString
      | t => String c t
      end
  end.

(** [String.prototype.trim] *)
Definition trim (s : string) : string := trimEnd (trimStart s).

(** [String.prototype.includes]: [sub] occurs in [s] as a plain substring. *)
Fixpoint includes (s sub : string) : bool :=
  String.prefix sub s ||
  match s with
  | EmptyString => false
  | String _ s' => includes s' sub
  end.

(** [Array.prototype.join] on an array of strings. *)
Fixpoint join (sep : string) (l : list string) : string :=
  match l with
  | [] => EmptyString
  | [x] => x
  | x :: rest => (x ++ sep ++ join sep rest)%string
  end.

(** The text from index [n] on. *)
Fixpoint drop (n : nat) (s : string) : string :=
  match n, s with
  | O, _ => s
  | S n', String _ s' => drop n' s'
  | S _, EmptyString => EmptyString
  end.

(** Every code unit of [s] is white space. *)
Fixpoint all_white_space (s : string) : bool :=
  match s with
  | EmptyString => true
  | String c s' => is_white_space c && all_white_space s'
  end.

(** Number of code units of [s] equal to [c]. *)
Fixpoint count_char (c : ascii) (s : string) : nat :=
  match s with
  | EmptyString => 0
  | String a s' => (if Ascii.eqb a c then 1 else 0) + count_char c s'
  end.

(** Number of code units equal to [c] at the start of [s]. *)
Fixpoint leading (c : ascii) (s : string) : nat :=
  match s with
  | EmptyString => 0
  | String a s' => if Ascii.eqb a c then S (leading c s') else 0
  end.

End JSString.

(* ================================================================= *)
(** ** Regular expressions

    The fragment of ECMA-262 patterns (with the Annex B extensions that
    browsers implement, no [u] flag) that the marker patterns of the
    converter fall into: a sequence of single-character atoms, each
    optionally followed by the greedy quantifier [*]. *)

Module RegExp.

Record Term := mkTerm { atom : ascii; starred : bool }.

Definition Pattern := list Term.

Definition is_hex_digit (c : ascii) : bool :=
  let n := nat_of_ascii c in
  (Nat.leb 48 n && Nat.leb n 57) || (Nat.leb 65 n && Nat.leb n 70) || (Nat.leb 97 n && Nat.leb n 102).

(** [SyntaxCharacter]: ^ $ \ . * + ? ( ) [ ] { } | *)
Definition is_syntax_character (c : ascii) : bool :=
  match nat_of_ascii c with
  | 94 | 36 | 92 | 46 | 42 | 43 | 63 | 40 | 41 | 91 | 93 | 123 | 125 | 124 => true
  | _ => false
  end.

(** The character matched by the escape [\c] when the pattern continues
    with [rest]; [None] when the escape is not a single-character atom of
    this fragment (classes, assertions, back references, control
    letters, hexadecimal and unicode escapes).
    - [ControlEscape]: [\f] FF, [\n] LF, [\r] CR, [\t] TAB, [\v] VT;
    - [\x] not followed by two hexadecimal digits and every other
      character that starts no escape: [IdentityEscape] (Annex B), the
      character itself. *)
Definition escape (c : ascii) (rest : string) : option ascii :=
  match c with
  | "f"%char => Some "012"%char
  | "n"%char => Some "010"%char
  | "r"%char => Some "013"%char
  | "t"%char => Some "009"%char
  | "v"%char => Some "011"%char
  | "x"%char =>
      match rest with
      | String h1 (String h2 _) =>
          if is_hex_digit h1 && is_hex_digit h2 then None else Some c
      | _ => Some c
      end
  | "d"%char | "D"%char | "s"%char | "S"%char | "w"%char | "W"%char
  | "b"%char | "B"%char | "c"%char | "k"%char | "u"%char
  | "0"%char | "1"%char | "2"%char | "3"%char | "4"%char
  | "5"%char | "6"%char | "7"%char | "8"%char | "9"%char => None
  | _ => Some c
  end.

(** Parsing of a pattern text; [None] outside the fragment (which
    includes the texts that [new RegExp] rejects with a SyntaxError). *)
Fixpoint parse (s : string) : option Pattern :=
  match s with
  | EmptyString => Some []
  | String "092"%char EmptyString => None
  | String "092"%char (String c rest) =>
      match escape c rest with
      | None => None
      | Some a =>
          match rest with
          | String "*"%char (String "?"%char _) => None
          | String "*"%char rest' => option_map (cons (mkTerm a true)) (parse rest')
          | _ => option_map (cons (mkTerm a false)) (parse rest)
          end
      end
  | String c rest =>
      if is_syntax_character c then None
      else
        match rest with
        | String "*"%char (String "?"%char _) => None
        | String "*"%char rest' => option_map (cons (mkTerm c true)) (parse rest')
        | _ => option_map (cons (mkTerm c false)) (parse rest)
        end
  end.

(** Greedy repetition of the atom [c], then the continuation [k]: take
    one more [c] when the rest still matches, give it back otherwise. *)
Fixpoint match_star (c : ascii) (k : string -> option nat) (s : string) : option nat :=
  match s with
  | EmptyString => k s
  | String a s' =>
      if Ascii.eqb a c then
        match match_star c k s' with
        | Some n => Some (S n)
        | None => k s
        end
      else k s
  end.

(** Length of the match of [p] starting at the first code unit of [s]. *)
Fixpoint match_here (p : Pattern) : string -> option nat :=
  match p with
  | [] => fun _ => Some 0
  | t :: p' =>
      if starred t then match_star (atom t) (match_here p')
      else fun s =>
        match s with
        | EmptyString => None
        | String a s' =>
            if Ascii.eqb a (atom t) then option_map S (match_here p' s') else None
        end
  end.

(** [RegExpBuiltinExec] without the sticky flag: the first index at or
    after the start of [s] where [p] matches, and the length matched. *)
Fixpoint exec (p : Pattern) (s : string) : option (nat * nat) :=
  match match_here p s with
  | Some len => Some (0, len)
  | None =>
      match s with
      | EmptyString => None
      | String _ s' =>
          match exec p s' with
          | Some (off, len) => Some (S off, len)
          | None => None
          end
      end
  end.

(** The loop of [RegExp.prototype[Symbol.match]] for a global pattern;
    [s] is the text from [lastIndex] on. After an empty match
    [lastIndex] advances by one, and a [lastIndex] beyond the end of the
    text ends the loop. Every round but the last consumes a code unit,
    so [S (length s)] rounds are enough. *)
Fixpoint match_loop (fuel : nat) (p : Pattern) (s : string) : list string :=
  match fuel with
  | O => []
  | S fuel' =>
      match exec p s with
      | None => []
      | Some (off, len) =>
          let matched := String.substring off len s in
          let rest := JSString.drop (off + len) s in
          if Nat.eqb len 0 then
            match rest with
            | EmptyString => [matched]
            | String _ rest' => matched :: match_loop fuel' p rest'
            end
          else matched :: match_loop fuel' p rest
      end
  end.

(** [s.match(new RegExp(p, 'g'))]: the list of matches, [None] for the
    [null] returned when there is none. *)
Definition String_match (s : string) (p : Pattern) : option (list string) :=
  match match_loop (S (String.length s)) p s with
  | [] => None
  | l => Some l
  end.

End RegExp.

(* ================================================================= *)
(** ** Values produced by [Response.json()] *)

Module JSValue.

(** A number is an IEEE-754 double: a signed zero, [(-1)^s * m * 2^e], or
    a signed infinity ([JSON.parse] yields no NaN). The converter only
    tests numbers for truth and prints them. *)
Inductive number :=
| Zero (negative : bool)
| Finite (negative : bool) (mantissa : positive) (exponent : Z)
| Infinity (negative : bool).

(** [JObject members] lists the own properties of a parsed object, each
    name once (of a repeated name [JSON.parse] keeps the last value). *)
#[local] Unset Elimination Schemes.
Inductive JSON :=
| JNull
| JBool (b : bool)
| JNumber (n : number)
| JString (s : string)
| JArray (items : list JSON)
| JObject (members : list (string * JSON)).
#[local] Set Elimination Schemes.

(** The property names the converter reads. None of them is defined on
    [Object.prototype], [Array.prototype], [String.prototype],
    [Number.prototype] or [Boolean.prototype], so a value that does not
    own one reads as [undefined]. *)
Inductive Property := p_error | p_message | p_choices | p_content | p_0.

Definition property_name (p : Property) : string :=
  match p with
  | p_error => "error"
  | p_message => "message"
  | p_choices => "choices"
  | p_content => "content"
  | p_0 => "0"
  end.

Fixpoint lookup (name : string) (members : list (string * JSON)) : option JSON :=
  match members with
  | [] => None
  | (k, v) :: rest => if String.eqb k name then Some v else lookup name rest
  end.

(** [v.p] (or [v[0]]) for [v] neither [null] nor [undefined]; [None] is
    [undefined]. Index 0 of a string is its first code unit. *)
Definition Get (v : JSON) (p : Property) : option JSON :=
  match v with
  | JObject members => lookup (property_name p) members
  | JArray items => match p with p_0 => hd_error items | _ => None end
  | JString s =>
      match p, s with
      | p_0, String c _ => Some (JString (String c EmptyString))
      | _, _ => None
      end
  | JNull | JBool _ | JNumber _ => None
  end.

(** Optional chaining [v?.p]: [undefined] when [v] is [null] or
    [undefined]. *)
Definition GetOptional (v : option JSON) (p : Property) : option JSON :=
  match v with
  | None | Some JNull => None
  | Some v' => Get v' p
  end.

(** [ToBoolean]; [None] is [undefined]. *)
Definition ToBoolean (v : option JSON) : bool :=
  match v with
  | None | Some JNull => false
  | Some (JBool b) => b
  | Some (JNumber (Zero _)) => false
  | Some (JNumber _) => true
  | Some (JString s) => negb (String.eqb s EmptyString)
  | Some (JArray _) | Some (JObject _) => true
  end.

(** [HasProperty], the [in] operator on an object or array; [None] when
    the right-hand side is a primitive value, where [in] raises a
    TypeError. *)
Definition HasProperty (v : JSON) (p : Property) : option bool :=
  match v with
  | JObject members =>
      Some (match lookup (property_name p) members with Some _ => true | None => false end)
  | JArray items =>
      Some (match p, items with p_0, _ :: _ => true | _, _ => false end)
  | JNull | JBool _ | JNumber _ | JString _ => None
  end.

(** [Array.prototype.includes] with a string argument: [SameValueZero]
    holds of an item exactly when it is that string. *)
Definition Array_includes (items : list JSON) (x : string) : bool :=
  existsb (fun v => match v with JString s => String.eqb s x | _ => false end) items.

End JSValue.
Import JSValue.

(* ================================================================= *)
(** ** Exceptions *)

(** A thrown value: an [Error] object (of any subclass) with its message,
    or a value that is not an instance of [Error]. *)
Inductive Thrown :=
| ErrorObject (message : string)
| NotAnError.

(** Outcome of evaluating a piece of code. *)
Inductive Completion (A : Type) :=
| Normal (a : A)
| Throw (e : Thrown).
Arguments Normal {A} a.
Arguments Throw {A} e.

(** Texts that ECMA-262 leaves to the engine. *)
Record Engine := {
  (** message of the TypeError raised by [name in v] for a primitive [v] *)
  in_TypeError : string -> JSON -> string;
  (** message of the TypeError raised by the call [v.name(...)] when
      [v.name] is not callable *)
  call_TypeError : string -> JSON -> string;
  (** message of the SyntaxError raised by [new RegExp] *)
  RegExp_SyntaxError : string -> string;
  (** [ToString] of a value that is not a string: number printing, array
      joining, "[object Object]", or the TypeError raised for an object
      that shadows [toString] *)
  ToString : JSON -> Completion string
}.

(* ================================================================= *)
(** ** types.ts *)

Record ConversionResult := {
  success : bool;
  usfm : option string;
  error : option string
}.

Inductive Role := system | user | assistant.

Record OpenRouterMessage := {
  role : Role;
  content : string
}.

(* ================================================================= *)
(** ** The completion service *)

(** The object handed to [JSON.stringify] for the request body. *)
Record RequestBody := {
  model : string;
  messages : list OpenRouterMessage
}.

Record Request := {
  url : string;
  method : string;
  headers : list (string * string);
  body : RequestBody
}.

(** A [Response]: its status and what [response.json()] settles to. *)
Record Response := {
  status : Z;
  json : Completion JSON
}.

(** [response.ok]: the status is in the range 200-299. *)
Definition ok (r : Response) : bool :=
  (200 <=? status r)%Z && (status r <=? 299)%Z.

(** What the promise returned by [fetch] settles to. *)
Inductive FetchOutcome :=
| Rejected (e : Thrown)
| Resolved (r : Response).

(* ================================================================= *)
(** ** Constants of [convertToUSFM] *)

Definition system_prompt : string :=
"You are a USFM (Unified Standard Format Markers) conversion expert. Your task is to convert study notes into valid USFM format.

Follow these strict guidelines:
1. Always start with proper USFM headers:
   - \id for book identification
   - \h for running header
   - \mt for main title

2. Use correct markers:
   - \v for verse numbers
   - \p for paragraphs
   - \s1, \s2 for section headings
   - \f ..\f* for footnotes
   - \x ..\x* for cross references
   - \esb ..\esbe for study Bible notes
   - \cat for categories
   - \ms for major section headings
   - \xt for cross-reference target references

3. Ensure proper nesting and closing of markers
4. Preserve all cross-references and study notes
5. Format footnotes with \fr for reference and \ft for text
6. Use \p for new paragraphs, not line breaks
7. Maintain hierarchical structure of headings

Output only valid USFM markup without explanations or comments.".

Definition requiredMarkers : list string := ["\id"; "\h"; "\mt"].

Definition markerPairs : list (string * string) :=
  [("\f", "\f*"); ("\x", "\x*"); ("\esb", "\esbe")].


(* ================================================================= *)
(** ** Sequencing of effects *)

(** Sequencing of code whose evaluation may throw: the first abrupt
    completion ends the evaluation. *)
Definition and_then {A B : Type} (c : Completion A) (k : A -> Completion B)
  : Completion B :=
  match c with
  | Normal a => k a
  | Throw e => Throw e
  end.

Declare Scope completion_scope.
Delimit Scope completion_scope with completion.
Notation "x <- c ;; k" := (and_then c (fun x => k))
  (at level 61, c at next level, right associativity) : completion_scope.
Notation "c ;; k" := (and_then c (fun _ => k))
  (at level 61, right associativity) : completion_scope.

(* ================================================================= *)
(** ** Structural validation (lines 146-168) *)

Section Validator.

Variable E : Engine.

(** [new RegExp(pattern, 'g')] *)
Definition new_RegExp (pattern : string) : Completion RegExp.Pattern :=
  match RegExp.parse pattern with
  | Some p => Normal p
  | None => Throw (ErrorObject (RegExp_SyntaxError E pattern))
  end.

(** [(text.match(re) || []).length] *)
Definition match_count (text : string) (re : RegExp.Pattern) : nat :=
  List.length (match RegExp.String_match text re with
               | Some l => l
               | None => []
               end).

(** The loop over [markerPairs]. *)
Fixpoint checkMarkerPairs (convertedText : string) (pairs : list (string * string))
  : Completion unit :=
  match pairs with
  | [] => Normal tt
  | (start, end_) :: rest =>
      (startRe <- new_RegExp start ;;
       let startCount := match_count convertedText startRe in
       endRe <- new_RegExp end_ ;;
       let endCount := match_count convertedText endRe in
       if negb (Nat.eqb startCount endCount) then
         Throw (ErrorObject ("Invalid USFM output: Mismatched " ++ start ++ " markers")%string)
       else checkMarkerPairs convertedText rest)%completion
  end.

(** [requiredMarkers.filter(marker => !convertedText.includes(marker))] *)
Definition missingMarkers (convertedText : string) : list string :=
  filter (fun marker => negb (JSString.includes convertedText marker)) requiredMarkers.

Definition missing_markers_message (missing : list string) : string :=
  ("Invalid USFM output: Missing required markers: " ++ JSString.join ", " missing)%string.

(** Validation of [convertedText], a value that [ToBoolean] takes to
    [true]; the result is the text that the converter returns. A string
    goes through both checks. An array answers [includes] with
    [Array.prototype.includes] and has no [match]; any other value has no
    callable [includes]. *)
Definition validateUSFM (convertedText : JSON) : Completion string :=
  match convertedText with
  | JString s =>
      if Nat.ltb 0 (List.length (missingMarkers s)) then
        Throw (ErrorObject (missing_markers_message (missingMarkers s)))
      else
        (checkMarkerPairs s markerPairs ;; Normal s)%completion
  | JArray items =>
      let missing := filter (fun marker => negb (Array_includes items marker)) requiredMarkers in
      if Nat.ltb 0 (List.length missing) then
        Throw (ErrorObject (missing_markers_message missing))
      else
        Throw (ErrorObject (call_TypeError E "match" convertedText))
  | _ => Throw (ErrorObject (call_TypeError E "includes" convertedText))
  end.

End Validator.

(* ================================================================= *)
(** ** Classification of the response (lines 116-144) *)

Section Client.

Variable E : Engine.

(** [name in v] *)
Definition js_in (p : Property) (v : JSON) : Completion bool :=
  match HasProperty v p with
  | Some b => Normal b
  | None => Throw (ErrorObject (in_TypeError E (property_name p) v))
  end.

(** [new Error(v)]: the message is [ToString(v)]. *)
Definition new_Error (v : JSON) : Completion Thrown :=
  match v with
  | JString s => Normal (ErrorObject s)
  | _ =>
      match ToString E v with
      | Normal s => Normal (ErrorObject s)
      | Throw e => Throw e
      end
  end.

(** ['error' in data && data.error?.message ? data.error.message
     : 'Failed to convert text'], once ['error' in data] is known. *)
Definition errorMessage_of (has_error : bool) (data : JSON) : JSON :=
  let embedded := GetOptional (Get data p_error) p_message in
  match embedded with
  | Some v =>
      if has_error && ToBoolean embedded then v
      else JString "Failed to convert text"
  | None => JString "Failed to convert text"
  end.

(** [data.choices?.[0]?.message?.content] *)
Definition completion_content (data : JSON) : option JSON :=
  GetOptional (GetOptional (GetOptional (Get data p_choices) p_0) p_message) p_content.

(** From [await response.json()] to [convertedText]. *)
Definition readCompletion (response : Response) : Completion JSON :=
  (data <- json response ;;
   failed <- (if negb (ok response) then Normal true else js_in p_error data) ;;
   if (failed : bool) then
     has_error <- js_in p_error data ;;
     let errorMessage := errorMessage_of has_error data in
     match status response with
     | 401%Z => Throw (ErrorObject "Invalid API key. Please check your OpenRouter API key.")
     | 429%Z => Throw (ErrorObject "Rate limit exceeded. Please try again later.")
     | 402%Z => Throw (ErrorObject "Insufficient credits. Please check your OpenRouter account.")
     | 500%Z | 502%Z | 503%Z | 504%Z =>
         Throw (ErrorObject "OpenRouter API service error. Please try again later.")
     | _ => e <- new_Error errorMessage ;; Throw e
     end
   else
     has_choices <- js_in p_choices data ;;
     if negb has_choices || negb (ToBoolean (completion_content data)) then
       Throw (ErrorObject "Invalid API response format")
     else
       match completion_content data with
       | Some convertedText => Normal convertedText
       | None => Throw (ErrorObject "Invalid API response format")
       end)%completion.

End Client.

(* ================================================================= *)
(** ** The conversion (lines 59-181) *)

Declare Scope exec_scope.
Delimit Scope exec_scope with exec.

Section Converter.

(** The completion service: from its state and a request, what [fetch]
    settles to and the service's next state. *)
Variable ServiceState : Type.
Variable service : ServiceState -> Request -> FetchOutcome * ServiceState.

(** The [apiKey] prop of the component and [window.location.origin]. *)
Variable apiKey : string.
Variable origin : string.

Variable E : Engine.

(** What a conversion can observe or change: the service, the requests
    issued so far and the values passed to [console.error]. *)
Record World := {
  service_state : ServiceState;
  requests : list Request;
  console : list Thrown
}.

Definition Exec (A : Type) : Type := World -> Completion A * World.

Definition ret {A : Type} (a : A) : Exec A := fun w => (Normal a, w).

Definition exec_then {A B : Type} (c : Exec A) (k : A -> Exec B) : Exec B :=
  fun w =>
    match c w with
    | (Normal a, w') => k a w'
    | (Throw e, w') => (Throw e, w')
    end.

Notation "x <- c ;; k" := (exec_then c (fun x => k))
  (at level 61, c at next level, right associativity) : exec_scope.

Definition throw {A : Type} (e : Thrown) : Exec A := fun w => (Throw e, w).

(** Code that neither calls the service nor writes to the console. *)
Definition lift {A : Type} (c : Completion A) : Exec A := fun w => (c, w).

(** The world once [req] has been sent and the service moved to [st]. *)
Definition sent (req : Request) (st : ServiceState) (w : World) : World :=
  {| service_state := st;
     requests := requests w ++ [req];
     console := console w |}.

(** [await fetch(...)] *)
Definition fetch (req : Request) : Exec Response := fun w =>
  let (outcome, st) := service (service_state w) req in
  match outcome with
  | Rejected e => (Throw e, sent req st w)
  | Resolved r => (Normal r, sent req st w)
  end.

(** [console.error('Conversion error:', error)] *)
Definition console_error (e : Thrown) (w : World) : World :=
  {| service_state := service_state w;
     requests := requests w;
     console := console w ++ [e] |}.

Definition completion_request (text : string) : Request :=
  let messages :=
    [ {| role := system; content := system_prompt |};
      {| role := user; content := text |} ] in
  {| url := "https://openrouter.ai/api/v1/chat/completions";
     method := "POST";
     headers := [ ("Content-Type", "application/json");
                  ("Authorization", ("Bearer " ++ apiKey)%string);
                  ("HTTP-Referer", origin);
                  ("X-Title", "USFM Converter") ];
     body := {| model := "anthropic/claude-3-opus"; messages := messages |} |}.

(** Lines 61-144: input check, request, classification of the response
    and extraction of [convertedText]. *)
Definition requestCompletion (text : string) : Exec JSON :=
  (if String.eqb (JSString.trim text) EmptyString then
     throw (ErrorObject "Input text cannot be empty")
   else
     response <- fetch (completion_request text) ;;
     lift (readCompletion E response))%exec.

(** The body of the [try] statement. *)
Definition try_block (text : string) : Exec ConversionResult :=
  (convertedText <- requestCompletion text ;;
   validated <- lift (validateUSFM E convertedText) ;;
   ret {| success := true; usfm := Some validated; error := None |})%exec.

(** [error instanceof Error ? error.message : 'An unknown error occurred'] *)
Definition caught_message (e : Thrown) : string :=
  match e with
  | ErrorObject m => m
  | NotAnError => "An unknown error occurred"
  end.

(** [convertToUSFM(text, retries)]; the caller leaves [retries] at its
    default, 3. *)
Definition convertToUSFM (text : string) (retries : Z) (w : World)
  : ConversionResult * World :=
  match try_block text w with
  | (Normal result, w') => (result, w')
  | (Throw e, w') =>
      ({| success := false; usfm := None; error := Some (caught_message e) |},
       console_error e w')
  end.

End Converter.

Arguments service_state {ServiceState} _.
Arguments requests {ServiceState} _.
Arguments console {ServiceState} _.
Arguments sent {ServiceState} req st w.
Arguments ret {ServiceState A} a _.
Arguments throw {ServiceState A} e _.
Arguments lift {ServiceState A} c _.
Arguments exec_then {ServiceState A B} c k _.
Arguments console_error {ServiceState} e w.
Arguments fetch {ServiceState} service req _.
Arguments requestCompletion {ServiceState} service apiKey origin E text _.
Arguments try_block {ServiceState} service apiKey origin E text _.
Arguments convertToUSFM {ServiceState} service apiKey origin E text retries w.

(* ================================================================= *)
(** ** The marker check as the specification words it *)

(** Follows the spec's words ("count literal occurrences of the open token
    and of the close token ... across the whole text"): the number of
    indices of [text] at which [token] starts. *)
Fixpoint literal_occurrences (token text : string) : nat :=
  (if String.prefix token text then 1 else 0) +
  match text with
  | EmptyString => 0
  | String _ text' => literal_occurrences token text'
  end.

(** Follows the spec's words: every marker pair has as many open tokens
    as close tokens. *)
Definition literally_balanced (text : string) : bool :=
  forallb (fun pair => Nat.eqb (literal_occurrences (fst pair) text)
                               (literal_occurrences (snd pair) text))
          markerPairs.

(* ================================================================= *)
(** ** A stub service, for the examples *)

Definition stub_engine : Engine := {|
  in_TypeError := fun name _ => ("Cannot use 'in' operator to search for '" ++ name ++ "'")%string;
  call_TypeError := fun name _ => ("convertedText." ++ name ++ " is not a function")%string;
  RegExp_SyntaxError := fun pattern => ("Invalid regular expression: /" ++ pattern ++ "/")%string;
  ToString := fun _ => Normal "[object Object]"
|}.

(** A service that counts the requests it receives and settles each of
    them with [outcome]. *)
Definition stub_service (outcome : FetchOutcome) (calls : nat) (_ : Request)
  : FetchOutcome * nat :=
  (outcome, S calls).

Definition stub_world : World nat :=
  {| service_state := 0; requests := []; console := [] |}.

(** The conversion against the stub: key, origin and engine fixed. *)
Definition stub_convert (outcome : FetchOutcome) (text : string) (retries : Z)
  : ConversionResult * World nat :=
  convertToUSFM (stub_service outcome) "sk-or-test" "http://localhost:5173"
                stub_engine text retries stub_world.

(** A completion body whose first choice carries [content]. *)
Definition completion_body (content : JSON) : JSON :=
  JObject [ ("id", JString "gen-1");
            ("choices", JArray [ JObject [ ("message", JObject [ ("role", JString "assistant");
                                                                 ("content", content) ]);
                                           ("finish_reason", JString "stop") ] ]);
            ("model", JString "anthropic/claude-3-opus") ].

(** The result [{ success: false, error: message }]. *)
Definition failure (message : string) : ConversionResult :=
  {| success := false; usfm := None; error := Some message |}.

(** A converted document with the three headers and no footnote,
    cross-reference or study note. *)
Definition plain_document : string :=
  "\id GEN \h Genesis \mt Genesis \p In the beginning God created the heavens and the earth.".

(** The headers, two footnote-open tokens, one footnote-close token and
    seventeen form feeds. *)
Definition form_feed_document : string :=
  ("\id\h\mt\f\f\f*" ++ string_of_list_ascii (repeat "012"%char 17))%string.

(** A response with the given status whose body parses to [data]. *)
Definition json_response (status : Z) (data : JSON) : Response :=
  {| status := status; json := Normal data |}.

(** Status 401 with a body that is not JSON. *)
Definition unparsable_401 : Response :=
  {| status := 401; json := Throw (ErrorObject "Unexpected end of JSON input") |}.

(** The error envelope of the service. *)
Definition unauthorized_body : JSON :=
  JObject [ ("error", JObject [ ("message", JString "No auth credentials found");
                                ("code", JNumber (Finite false 401 0)) ]) ].

(** An error envelope next to an empty [choices] array. *)
Definition envelope_without_choice : JSON :=
  JObject [ ("error", JObject [ ("message", JString "Provider returned error") ]);
            ("choices", JArray []) ].

(** An error envelope next to a first choice with empty content. *)
Definition envelope_with_empty_content : JSON :=
  JObject [ ("error", JObject [ ("message", JString "Provider returned error") ]);
            ("choices", JArray [ JObject [ ("message", JObject [ ("role", JString "assistant");
                                                                 ("content", JString EmptyString) ]) ] ]) ].

(** An empty [choices] array. *)
Definition no_choice_body : JSON :=
  JObject [ ("id", JString "gen-1"); ("choices", JArray []) ].

(* ================================================================= *)
(** ** The component state and its handlers (lines 35-57, 183-232, 286,
       315, 323 and 336) *)

Record USFMState := {
  input : string;
  output : string;
  isProcessing : bool
}.

(** The argument of [useState]. *)
Definition initial_state : USFMState :=
  {| input := EmptyString; output := EmptyString; isProcessing := false |}.

(** [setState(prev => ({ ...prev, input: value }))] and its two siblings. *)
Definition setInput (value : string) (prev : USFMState) : USFMState :=
  {| input := value; output := output prev; isProcessing := isProcessing prev |}.

Definition setOutput (value : string) (prev : USFMState) : USFMState :=
  {| input := input prev; output := value; isProcessing := isProcessing prev |}.

Definition setIsProcessing (value : bool) (prev : USFMState) : USFMState :=
  {| input := input prev; output := output prev; isProcessing := value |}.

(** A call of [toast.success] or [toast.error]. *)
Inductive Toast :=
| toast_success (message : string)
| toast_error (message : string).

(** [disabled={state.isProcessing || !state.input.trim()}] of the Convert
    button and [disabled={!state.output}] of Copy and Download. *)
Definition convert_disabled (s : USFMState) : bool :=
  isProcessing s || String.eqb (JSString.trim (input s)) EmptyString.

Definition copy_disabled (s : USFMState) : bool :=
  String.eqb (output s) EmptyString.

Section Component.

Variable ServiceState : Type.
Variable service : ServiceState -> Request -> FetchOutcome * ServiceState.
Variable apiKey : string.
Variable origin : string.
Variable E : Engine.

(** The type guard [isOpenRouterResponse]: ['choices' in data]. *)
Definition isOpenRouterResponse (data : JSON) : Completion bool :=
  js_in E p_choices data.

(** The component and what its handlers act on: the toasts shown, the
    texts of the conversions that await their result, the service, the
    text last written to the clipboard and the files handed to the
    browser for download (name and content). *)
Record Page := {
  state : USFMState;
  toasts : list Toast;
  pending : list string;
  net : World ServiceState;
  clipboard : option string;
  downloads : list (string * string)
}.

Definition setState (f : USFMState -> USFMState) (p : Page) : Page :=
  {| state := f (state p); toasts := toasts p; pending := pending p;
     net := net p; clipboard := clipboard p; downloads := downloads p |}.

Definition toast (t : Toast) (p : Page) : Page :=
  {| state := state p; toasts := toasts p ++ [t]; pending := pending p;
     net := net p; clipboard := clipboard p; downloads := downloads p |}.

Definition mounted (w : World ServiceState) : Page :=
  {| state := initial_state; toasts := []; pending := [];
     net := w; clipboard := None; downloads := [] |}.

(** [onChange] of the input editor: [setInput(value || '')]; [None] is
    [undefined]. *)
Definition editor_onChange (value : option string) (p : Page) : Page :=
  setState (setInput (match value with Some v => v | None => EmptyString end)) p.

(** [handleFileUpload]. [file] is [None] when no file was chosen; else it
    is what reading the file and [mammoth.extractRawText] come to: the
    extracted [result.value], or a thrown value. *)
Definition handleFileUpload (file : option (Completion string)) (p : Page) : Page :=
  match file with
  | None => p
  | Some (Normal value) =>
      toast (toast_success "Document uploaded successfully") (setState (setInput value) p)
  | Some (Throw _) => toast (toast_error "Failed to read document") p
  end.

(** [handleConvert] from [await convertToUSFM(state.input)] on, [text]
    being the input the handler read. *)
Definition handleConvert_settle (text : string) (p : Page) : Page :=
  let (result, w) := convertToUSFM service apiKey origin E text 3 (net p) in
  let p1 := {| state := setIsProcessing false (state p); toasts := toasts p;
               pending := pending p; net := w;
               clipboard := clipboard p; downloads := downloads p |} in
  match (if success result then usfm result else None) with
  | Some (String c u) =>
      toast (toast_success "Conversion completed") (setState (setOutput (String c u)) p1)
  | _ =>
      toast (toast_error (match error result with
                          | Some (String c m) => String c m
                          | _ => "Conversion failed"
                          end)) p1
  end.

(** [handleConvert] up to the [await]: the guard, [setIsProcessing(true)]
    and the call, whose result is awaited. *)
Definition handleConvert_start (p : Page) : Page :=
  if String.eqb (JSString.trim (input (state p))) EmptyString then
    toast (toast_error "Please enter some text to convert") p
  else
    {| state := setIsProcessing true (state p); toasts := toasts p;
       pending := pending p ++ [input (state p)]; net := net p;
       clipboard := clipboard p; downloads := downloads p |}.

(** [handleConvert] when nothing else happens before the result is in. *)
Definition handleConvert (p : Page) : Page :=
  if String.eqb (JSString.trim (input (state p))) EmptyString then
    toast (toast_error "Please enter some text to convert") p
  else
    handleConvert_settle (input (state p)) (setState (setIsProcessing true) p).

(** [handleCopy]; [written] tells whether [navigator.clipboard.writeText]
    fulfils its promise. *)
Definition handleCopy (written : bool) (p : Page) : Page :=
  if written then
    toast (toast_success "Copied to clipboard")
          {| state := state p; toasts := toasts p; pending := pending p;
             net := net p; clipboard := Some (output (state p));
             downloads := downloads p |}
  else toast (toast_error "Failed to copy") p.

(** [handleDownload]: the output goes to the browser as the file
    converted.usfm. *)
Definition handleDownload (p : Page) : Page :=
  toast (toast_success "Download started")
        {| state := state p; toasts := toasts p; pending := pending p;
           net := net p; clipboard := clipboard p;
           downloads := downloads p ++ [("converted.usfm", output (state p))] |}.

(** What can happen to the page. [Settled n] is the arrival of the result
    of the [n]-th conversion still awaited. *)
Inductive Event :=
| Edited (value : option string)
| FileChosen (file : option (Completion string))
| ConvertClicked
| Settled (n : nat)
| CopyClicked (written : bool)
| DownloadClicked.

Fixpoint remove_nth {A : Type} (n : nat) (l : list A) : list A :=
  match n, l with
  | _, [] => []
  | O, _ :: rest => rest
  | S n', x :: rest => x :: remove_nth n' rest
  end.

(** The handler of an event, run whether its control is enabled or not. *)
Definition step (p : Page) (e : Event) : Page :=
  match e with
  | Edited value => editor_onChange value p
  | FileChosen file => handleFileUpload file p
  | ConvertClicked => handleConvert_start p
  | Settled n =>
      match nth_error (pending p) n with
      | Some text =>
          handleConvert_settle text
            {| state := state p; toasts := toasts p;
               pending := remove_nth n (pending p); net := net p;
               clipboard := clipboard p; downloads := downloads p |}
      | None => p
      end
  | CopyClicked written => handleCopy written p
  | DownloadClicked => handleDownload p
  end.

(** A disabled button receives no click. *)
Definition enabled (p : Page) (e : Event) : bool :=
  match e with
  | ConvertClicked => negb (convert_disabled (state p))
  | CopyClicked _ | DownloadClicked => negb (copy_disabled (state p))
  | Edited _ | FileChosen _ | Settled _ => true
  end.

Definition ui_step (p : Page) (e : Event) : Page :=
  if enabled p e then step p e else p.

End Component.

Arguments state {ServiceState} _.
Arguments toasts {ServiceState} _.
Arguments pending {ServiceState} _.
Arguments net {ServiceState} _.
Arguments clipboard {ServiceState} _.
Arguments downloads {ServiceState} _.
Arguments setState {ServiceState} f p.
Arguments toast {ServiceState} t p.
Arguments mounted {ServiceState} w.
Arguments editor_onChange {ServiceState} value p.
Arguments handleFileUpload {ServiceState} file p.
Arguments handleConvert_settle {ServiceState} service apiKey origin E text p.
Arguments handleConvert_start {ServiceState} p.
Arguments handleConvert {ServiceState} service apiKey origin E p.
Arguments handleCopy {ServiceState} written p.
Arguments handleDownload {ServiceState} p.
Arguments step {ServiceState} service apiKey origin E p e.
Arguments enabled {ServiceState} p e.
Arguments ui_step {ServiceState} service apiKey origin E p e.

(* ================================================================= *)
(** ** App: the stored key and the screen shown *)

(** [localStorage], with room for the key: the item stored under each
    name, [None] where [getItem] returns [null]. *)
Definition Storage := string -> option string.

Definition getItem (key : string) (s : Storage) : option string := s key.

Definition setItem (key value : string) (s : Storage) : Storage :=
  fun k => if String.eqb k key then Some value else s k.

Definition removeItem (key : string) (s : Storage) : Storage :=
  fun k => if String.eqb k key then None else s k.

Record AppState := {
  app_apiKey : option string;
  localStorage : Storage
}.

(** The initializer of [useState]: [localStorage.getItem('openrouter_api_key')]. *)
Definition App_mount (s : Storage) : AppState :=
  {| app_apiKey := getItem "openrouter_api_key" s; localStorage := s |}.

Definition handleApiKeySubmit (key : string) (a : AppState) : AppState :=
  {| app_apiKey := Some key;
     localStorage := setItem "openrouter_api_key" key (localStorage a) |}.

Definition handleLogout (a : AppState) : AppState :=
  {| app_apiKey := None;
     localStorage := removeItem "openrouter_api_key" (localStorage a) |}.

Inductive Screen :=
| ApiKeyInput_screen
| USFMConverter_screen (apiKey : string).

(** [!apiKey ? <ApiKeyInput ... /> : <USFMConverter apiKey={apiKey} ... />] *)
Definition App_render (a : AppState) : Screen :=
  match app_apiKey a with
  | Some (String c k) => USFMConverter_screen (String c k)
  | _ => ApiKeyInput_screen
  end.

Inductive AppEvent :=
| KeySubmitted (key : string)
| LoggedOut.

Definition App_step (a : AppState) (e : AppEvent) : AppState :=
  match e with
  | KeySubmitted key => handleApiKeySubmit key a
  | LoggedOut => handleLogout a
  end.

(** Number of maximal runs of [c] in [s]; [inside] tells whether the code
    unit before [s] is [c]. *)
Fixpoint run_starts (c : ascii) (inside : bool) (s : string) : nat :=
  match s with
  | EmptyString => 0
  | String a s' =>
      if Ascii.eqb a c then (if inside then 0 else 1) + run_starts c true s'
      else run_starts c false s'
  end.

(* ================================================================= *)
(** * Properties *)

(** ** Strings *)

Section StringFacts.

Import JSString.

Lemma trimStart_all_white_space (s : string) :
  all_white_space s = true -> trimStart s = EmptyString.
Proof.
  induction s as [|c s IH]; simpl; [reflexivity|].
  intros H. apply andb_true_iff in H as [Hc Hs].
  rewrite Hc. auto.
Qed.

Lemma trim_all_white_space (s : string) :
  all_white_space s = true -> trim s = EmptyString.
Proof.
  intros H. unfold trim. rewrite trimStart_all_white_space by assumption.
  reflexivity.
Qed.

Lemma trimStart_head (s : string) :
  all_white_space s = false ->
  exists c s', trimStart s = String c s' /\ is_white_space c = false.
Proof.
  induction s as [|c s IH]; simpl; [discriminate|].
  destruct (is_white_space c) eqn:Hc; simpl.
  - exact IH.
  - intros _. exists c, s. split; [reflexivity | assumption].
Qed.

Lemma trimEnd_head (c : ascii) (s : string) :
  is_white_space c = false -> trimEnd (String c s) <> EmptyString.
Proof.
  intros Hc. simpl. destruct (trimEnd s); [rewrite Hc|]; discriminate.
Qed.

Lemma trim_not_all_white_space (s : string) :
  all_white_space s = false -> String.eqb (trim s) EmptyString = false.
Proof.
  intros H. destruct (trimStart_head s H) as (c & s' & Hs & Hc).
  unfold trim. rewrite Hs. apply String.eqb_neq. now apply trimEnd_head.
Qed.

Lemma trim_empty_iff (s : string) :
  String.eqb (trim s) EmptyString = all_white_space s.
Proof.
  destruct (all_white_space s) eqn:H.
  - rewrite trim_all_white_space by assumption. reflexivity.
  - now apply trim_not_all_white_space.
Qed.

Lemma count_char_le_length (c : ascii) (s : string) :
  count_char c s <= String.length s.
Proof.
  induction s as [|a s IH]; simpl; [lia|].
  destruct (Ascii.eqb a c); lia.
Qed.

Lemma count_char_disjoint (c1 c2 : ascii) (s : string) :
  c1 <> c2 -> count_char c1 s + count_char c2 s <= String.length s.
Proof.
  intros Hne. induction s as [|a s IH]; simpl; [lia|].
  destruct (Ascii.eqb a c1) eqn:H1; destruct (Ascii.eqb a c2) eqn:H2; try lia.
  apply Ascii.eqb_eq in H1, H2. congruence.
Qed.

Lemma leading_split (c : ascii) (s : string) :
  count_char c s = leading c s + count_char c (drop (leading c s) s) /\
  String.length s = leading c s + String.length (drop (leading c s) s).
Proof.
  induction s as [|a s [IH1 IH2]]; simpl; [split; reflexivity|].
  destruct (Ascii.eqb a c) eqn:Hac; simpl.
  - split; lia.
  - rewrite Hac. split; reflexivity.
Qed.

Lemma length_drop_le (n : nat) (s : string) :
  String.length (drop n s) <= String.length s.
Proof.
  revert s. induction n as [|n IH]; intros [|a s]; simpl; auto.
Qed.

End StringFacts.

(** ** Regular expressions *)

Section RegExpFacts.

Import JSString RegExp.

(** The marker texts parse to these patterns. *)
Lemma marker_patterns :
  map (fun pair => (parse (fst pair), parse (snd pair))) markerPairs =
  [ (Some [mkTerm "012" false], Some [mkTerm "012" true]);
    (Some [mkTerm "x" false], Some [mkTerm "x" true]);
    (Some [mkTerm "e" false; mkTerm "s" false; mkTerm "b" false],
     Some [mkTerm "e" false; mkTerm "s" false; mkTerm "b" false; mkTerm "e" false]) ].
Proof. reflexivity. Qed.

Lemma match_count_loop (s : string) (p : Pattern) :
  match_count s p = List.length (match_loop (S (String.length s)) p s).
Proof.
  unfold match_count, String_match.
  destruct (match_loop (S (String.length s)) p s); reflexivity.
Qed.

(** *** The match loop ends within its fuel *)

Lemma match_star_bound (c : ascii) (k : string -> option nat) :
  (forall s n, k s = Some n -> n <= String.length s) ->
  forall s n, match_star c k s = Some n -> n <= String.length s.
Proof.
  intros Hk s. induction s as [|a s IH]; intros n; simpl.
  - apply (Hk EmptyString).
  - destruct (Ascii.eqb a c); [|apply (Hk (String a s))].
    destruct (match_star c k s) as [m|].
    + intros H. injection H as <-. specialize (IH m eq_refl). lia.
    + apply (Hk (String a s)).
Qed.

Lemma match_here_bound (p : Pattern) :
  forall s n, match_here p s = Some n -> n <= String.length s.
Proof.
  induction p as [|t p IH]; intros s n; simpl.
  - intros H. injection H as <-. lia.
  - destruct (starred t).
    + apply match_star_bound. exact IH.
    + destruct s as [|a s]; [discriminate|].
      destruct (Ascii.eqb a (atom t)); [|discriminate].
      destruct (match_here p s) as [m|] eqn:Hm; [|discriminate].
      intros H. injection H as <-. specialize (IH s m Hm). simpl. lia.
Qed.

Lemma exec_bound (p : Pattern) (s : string) (off len : nat) :
  exec p s = Some (off, len) -> off + len <= String.length s.
Proof.
  revert off. induction s as [|a s IH]; intros off; cbn [exec].
  - destruct (match_here p EmptyString) as [m|] eqn:Hm; [|discriminate].
    intros H. injection H as <- <-. now apply match_here_bound in Hm.
  - destruct (match_here p (String a s)) as [m|] eqn:Hm.
    + intros H. injection H as <- <-. now apply match_here_bound in Hm.
    + destruct (exec p s) as [[off' len']|]; [|discriminate].
      intros H. injection H as <- <-. specialize (IH off' eq_refl). simpl. lia.
Qed.

Lemma length_drop (n : nat) (s : string) :
  String.length (drop n s) = String.length s - n.
Proof.
  revert s. induction n as [|n IH]; intros [|a s]; simpl; auto.
Qed.

Lemma match_loop_fuel (p : Pattern) (fuel fuel' : nat) :
  forall s, String.length s < fuel -> String.length s < fuel' ->
  match_loop fuel p s = match_loop fuel' p s.
Proof.
  revert fuel'. induction fuel as [|fuel IH]; intros fuel' s H H'; [lia|].
  destruct fuel' as [|fuel']; [lia|].
  cbn [match_loop].
  destruct (exec p s) as [[off len]|] eqn:Hex; [|reflexivity].
  pose proof (exec_bound p s off len Hex) as Hb.
  pose proof (length_drop (off + len) s) as Hd.
  destruct (Nat.eqb len 0) eqn:Hlen.
  - destruct (drop (off + len) s) as [|a rest]; [reflexivity|].
    simpl in Hd. f_equal. apply IH; lia.
  - apply Nat.eqb_neq in Hlen. f_equal. apply IH; lia.
Qed.

(** More fuel than [String_match] takes changes nothing: the loop has
    ended by itself. *)
Lemma String_match_fuel (p : Pattern) (s : string) (extra : nat) :
  String_match s p =
  match match_loop (S (String.length s) + extra) p s with
  | [] => None
  | l => Some l
  end.
Proof.
  unfold String_match.
  rewrite (match_loop_fuel p (S (String.length s)) (S (String.length s) + extra));
    [reflexivity | lia | lia].
Qed.

(** *** A single character *)

Lemma exec_char_none (c : ascii) (s : string) :
  exec [mkTerm c false] s = None -> count_char c s = 0.
Proof.
  induction s as [|a s IH]; simpl; [reflexivity|].
  destruct (Ascii.eqb a c); simpl; [discriminate|].
  destruct (exec [mkTerm c false] s) as [[off len]|]; [discriminate|].
  auto.
Qed.

Lemma exec_char_some (c : ascii) (s : string) (off len : nat) :
  exec [mkTerm c false] s = Some (off, len) ->
  len = 1 /\
  count_char c s = S (count_char c (drop (off + len) s)) /\
  String.length (drop (off + len) s) < String.length s.
Proof.
  revert off. induction s as [|a s IH]; intros off; simpl; [discriminate|].
  destruct (Ascii.eqb a c) eqn:Hac; simpl.
  - intros H. injection H as <- <-. simpl. repeat split; lia.
  - destruct (exec [mkTerm c false] s) as [[off' len']|] eqn:Hex; [|discriminate].
    intros H. injection H as <- <-.
    destruct (IH off' eq_refl) as (Hlen & Hcount & Hdrop).
    simpl. repeat split; auto; lia.
Qed.

Lemma match_loop_char (c : ascii) (fuel : nat) :
  forall s, String.length s < fuel ->
  List.length (match_loop fuel [mkTerm c false] s) = count_char c s.
Proof.
  induction fuel as [|fuel IH]; intros s Hfuel; [lia|].
  cbn [match_loop].
  destruct (exec [mkTerm c false] s) as [[off len]|] eqn:Hex.
  - destruct (exec_char_some c s off len Hex) as (-> & Hcount & Hdrop).
    cbn [Nat.eqb length]. rewrite IH by lia. symmetry. exact Hcount.
  - symmetry. now apply exec_char_none.
Qed.

(** [new RegExp('\\f', 'g')] and [new RegExp('\\x', 'g')] count the code
    units equal to the atom. *)
Lemma match_count_char (c : ascii) (s : string) :
  match_count s [mkTerm c false] = count_char c s.
Proof. rewrite match_count_loop. apply match_loop_char. lia. Qed.

(** *** A starred character *)

Lemma match_here_star (c : ascii) (s : string) :
  match_here [mkTerm c true] s = Some (leading c s).
Proof.
  induction s as [|a s IH]; [reflexivity|].
  cbn in *. destruct (Ascii.eqb a c); [|reflexivity].
  rewrite IH. reflexivity.
Qed.

Lemma exec_star (c : ascii) (s : string) :
  exec [mkTerm c true] s = Some (0, leading c s).
Proof.
  destruct s as [|a s]; unfold exec; fold exec; rewrite match_here_star; reflexivity.
Qed.

Lemma match_loop_star (c : ascii) (fuel : nat) :
  forall s, String.length s < fuel ->
  String.length s + 1 <=
  List.length (match_loop fuel [mkTerm c true] s) + count_char c s.
Proof.
  induction fuel as [|fuel IH]; intros s Hfuel; [lia|].
  cbn [match_loop]. rewrite exec_star.
  destruct (leading_split c s) as [Hcount Hlen].
  destruct (leading c s) as [|r] eqn:Hlead.
  - cbn [Nat.eqb Nat.add drop].
    destruct s as [|a s]; [simpl; lia|].
    simpl in Hlead. destruct (Ascii.eqb a c) eqn:Hac; [discriminate|].
    cbn [length String.length count_char]. rewrite Hac.
    specialize (IH s). simpl in Hfuel. lia.
  - cbn [Nat.eqb Nat.add length].
    specialize (IH (drop (S r) s)). lia.
Qed.

(** [new RegExp('\\f*', 'g')] and [new RegExp('\\x*', 'g')] match at every
    index that does not continue a run of the atom, the end of the text
    included. *)
Lemma match_count_star (c : ascii) (s : string) :
  String.length s + 1 <= match_count s [mkTerm c true] + count_char c s.
Proof. rewrite match_count_loop. apply match_loop_star. lia. Qed.

End RegExpFacts.

(** ** The validator *)

Section ValidatorFacts.

Import JSString RegExp.

Variable E : Engine.

Lemma checkMarkerPairs_cons (text start end_ : string) (rest : list (string * string))
      (startRe endRe : Pattern) :
  parse start = Some startRe ->
  parse end_ = Some endRe ->
  checkMarkerPairs E text ((start, end_) :: rest) =
  if Nat.eqb (match_count text startRe) (match_count text endRe)
  then checkMarkerPairs E text rest
  else Throw (ErrorObject ("Invalid USFM output: Mismatched " ++ start ++ " markers")%string).
Proof.
  intros Hs He. cbn [checkMarkerPairs]. unfold new_RegExp. rewrite Hs, He.
  cbn [and_then].
  destruct (Nat.eqb (match_count text startRe) (match_count text endRe)); reflexivity.
Qed.

(** No text passes the pair check: the footnote patterns agree only when
    form feeds make up more than half of the text, the cross-reference
    patterns only when the letter x does. *)
Lemma checkMarkerPairs_throws (text : string) :
  checkMarkerPairs E text markerPairs =
    Throw (ErrorObject "Invalid USFM output: Mismatched \f markers") \/
  checkMarkerPairs E text markerPairs =
    Throw (ErrorObject "Invalid USFM output: Mismatched \x markers").
Proof.
  unfold markerPairs.
  rewrite (checkMarkerPairs_cons text "\f" "\f*" _ [mkTerm "012" false] [mkTerm "012" true])
    by reflexivity.
  destruct (Nat.eqb (match_count text [mkTerm "012" false]) _) eqn:Hf;
    [|left; reflexivity].
  rewrite (checkMarkerPairs_cons text "\x" "\x*" _ [mkTerm "x" false] [mkTerm "x" true])
    by reflexivity.
  destruct (Nat.eqb (match_count text [mkTerm "x" false]) _) eqn:Hx;
    [|right; reflexivity].
  exfalso.
  apply Nat.eqb_eq in Hf, Hx. rewrite match_count_char in Hf, Hx.
  pose proof (match_count_star "012" text) as Bf.
  pose proof (match_count_star "x" text) as Bx.
  assert (Hne : "012"%char <> "x"%char) by discriminate.
  pose proof (count_char_disjoint "012" "x" text Hne) as Bd.
  lia.
Qed.

Lemma validateUSFM_throws (convertedText : JSON) :
  exists m, validateUSFM E convertedText = Throw (ErrorObject m).
Proof.
  destruct convertedText as [ | b | n | s | items | members ];
    unfold validateUSFM; eauto.
  - destruct (Nat.ltb 0 (List.length (missingMarkers s))); eauto.
    destruct (checkMarkerPairs_throws s) as [H | H]; rewrite H; cbn; eauto.
  - destruct (Nat.ltb 0 _); eauto.
Qed.

Lemma missingMarkers_spec (text marker : string) :
  In marker (missingMarkers text) <->
  In marker requiredMarkers /\ includes text marker = false.
Proof.
  unfold missingMarkers. rewrite filter_In, negb_true_iff. reflexivity.
Qed.

Lemma validateUSFM_missing (text : string) :
  missingMarkers text <> [] ->
  validateUSFM E (JString text) =
  Throw (ErrorObject (missing_markers_message (missingMarkers text))).
Proof.
  intros H. unfold validateUSFM.
  destruct (missingMarkers text) as [|m l]; [congruence | reflexivity].
Qed.

End ValidatorFacts.

(** ** The response classification *)

Section ClientFacts.

Variable E : Engine.

Lemma HasProperty_defined (v : JSON) (p q : Property) (b : bool) :
  HasProperty v p = Some b -> exists b', HasProperty v q = Some b'.
Proof. destruct v; simpl; intros H; try discriminate; eauto. Qed.

Lemma HasProperty_absent (v : JSON) (p : Property) :
  HasProperty v p = Some false -> Get v p = None.
Proof.
  destruct v as [ | | | | items | members ]; simpl; try discriminate.
  - destruct p, items; simpl; congruence.
  - destruct (lookup (property_name p) members); congruence.
Qed.

Lemma completion_content_no_choices (data : JSON) :
  Get data p_choices = None -> completion_content data = None.
Proof. intros H. unfold completion_content. rewrite H. reflexivity. Qed.

Lemma completion_content_no_first_choice (data : JSON) :
  Get data p_choices = Some (JArray []) -> completion_content data = None.
Proof. intros H. unfold completion_content. rewrite H. reflexivity. Qed.

Lemma completion_content_no_message (data first : JSON) (others : list JSON) :
  Get data p_choices = Some (JArray (first :: others)) ->
  GetOptional (Some first) p_message = None ->
  completion_content data = None.
Proof.
  intros H Hm. unfold completion_content. rewrite H.
  change (GetOptional (Some (JArray (first :: others))) p_0) with (Some first).
  rewrite Hm. reflexivity.
Qed.

Lemma readCompletion_unparsed (r : Response) (e : Thrown) :
  json r = Throw e -> readCompletion E r = Throw e.
Proof. intros H. unfold readCompletion. rewrite H. reflexivity. Qed.

Lemma readCompletion_401 (r : Response) (data : JSON) (b : bool) :
  status r = 401%Z ->
  json r = Normal data ->
  HasProperty data p_error = Some b ->
  readCompletion E r =
  Throw (ErrorObject "Invalid API key. Please check your OpenRouter API key.").
Proof.
  intros Hs Hj Hp. unfold readCompletion. rewrite Hj.
  cbn [and_then]. unfold ok, js_in. rewrite Hs, Hp. reflexivity.
Qed.

Lemma readCompletion_malformed (r : Response) (data : JSON) :
  ok r = true ->
  json r = Normal data ->
  HasProperty data p_error = Some false ->
  ToBoolean (completion_content data) = false ->
  readCompletion E r = Throw (ErrorObject "Invalid API response format").
Proof.
  intros Hok Hj Hp Hc. unfold readCompletion. rewrite Hj.
  cbn [and_then]. unfold js_in.
  destruct (HasProperty_defined data p_error p_choices false Hp) as [b Hb].
  rewrite Hok, Hp, Hb, Hc. cbn.
  rewrite orb_true_r. reflexivity.
Qed.

End ClientFacts.

(** ** The conversion *)

Section ConverterFacts.

Import JSString.

Variable ServiceState : Type.
Variable service : ServiceState -> Request -> FetchOutcome * ServiceState.
Variables apiKey origin : string.
Variable E : Engine.

Local Abbreviation convert := (convertToUSFM service apiKey origin E).
Local Abbreviation request := (completion_request apiKey origin).

Lemma convertToUSFM_blank (text : string) (retries : Z) (w : World ServiceState) :
  all_white_space text = true ->
  convert text retries w =
  (failure "Input text cannot be empty",
   console_error (ErrorObject "Input text cannot be empty") w).
Proof.
  intros H. unfold convertToUSFM, try_block, requestCompletion.
  unfold exec_then. rewrite trim_empty_iff, H. reflexivity.
Qed.

(** A text with a code unit that is not white space is sent once; what the
    service answers decides the result. *)
Lemma convertToUSFM_sent (text : string) (retries : Z) (w : World ServiceState)
      (outcome : FetchOutcome) (st : ServiceState) :
  all_white_space text = false ->
  service (service_state w) (request text) = (outcome, st) ->
  convert text retries w =
  match
    match outcome with
    | Rejected e => Throw e
    | Resolved r => (v <- readCompletion E r ;; validateUSFM E v)%completion
    end
  with
  | Normal validated =>
      ({| success := true; usfm := Some validated; error := None |},
       sent (request text) st w)
  | Throw e =>
      (failure (caught_message e), console_error e (sent (request text) st w))
  end.
Proof.
  intros Htext Hsvc.
  unfold convertToUSFM, try_block, requestCompletion, fetch, lift.
  unfold exec_then. rewrite trim_empty_iff, Htext, Hsvc.
  destruct outcome as [e | r]; [reflexivity|].
  cbn [and_then].
  destruct (readCompletion E r) as [v | e]; [|reflexivity].
  cbn [and_then]. destruct (validateUSFM E v); reflexivity.
Qed.

Lemma convertToUSFM_resolved_throw (text : string) (retries : Z) (w : World ServiceState)
      (r : Response) (st : ServiceState) (e : Thrown) :
  all_white_space text = false ->
  service (service_state w) (request text) = (Resolved r, st) ->
  readCompletion E r = Throw e ->
  convert text retries w =
  (failure (caught_message e), console_error e (sent (request text) st w)).
Proof.
  intros Htext Hsvc Hread.
  rewrite (convertToUSFM_sent text retries w _ _ Htext Hsvc).
  cbn [and_then]. rewrite Hread. reflexivity.
Qed.

(** X22. Whatever the input and the service do, the conversion does not
    succeed: the pair check rejects every text (see
    [checkMarkerPairs_throws]). *)
Theorem convertToUSFM_never_succeeds (text : string) (retries : Z) (w : World ServiceState) :
  success (fst (convert text retries w)) = false.
Proof.
  destruct (all_white_space text) eqn:Htext.
  - rewrite convertToUSFM_blank by assumption. reflexivity.
  - destruct (service (service_state w) (request text)) as [outcome st] eqn:Hsvc.
    rewrite (convertToUSFM_sent text retries w _ _ Htext Hsvc).
    destruct outcome as [e | r]; [reflexivity|].
    cbn [and_then].
    destruct (readCompletion E r) as [v | e]; [|reflexivity].
    cbn [and_then]. destruct (validateUSFM_throws E v) as [m ->]. reflexivity.
Qed.

(** C3. An input that is empty or made of white space only fails with
    "Input text cannot be empty"; no request is issued and the service is
    not consulted. *)
Theorem blank_input_fails_without_request
        (text : string) (retries : Z) (w : World ServiceState) :
  all_white_space text = true ->
  fst (convert text retries w) = failure "Input text cannot be empty" /\
  requests (snd (convert text retries w)) = requests w /\
  service_state (snd (convert text retries w)) = service_state w.
Proof.
  intros H. rewrite convertToUSFM_blank by assumption. repeat split.
Qed.

(** C4. The conversion always returns a result with exactly one variant
    populated: [success] with [usfm] and no [error], or not [success] with
    [error] and no [usfm]. An exception raised inside the [try] block does
    not leave the function: an [Error] with message [m] becomes the
    failure carrying [m], any other thrown value the failure carrying "An
    unknown error occurred". *)
Theorem convertToUSFM_one_variant (text : string) (retries : Z) (w : World ServiceState) :
  ((success (fst (convert text retries w)) = true /\
    (exists u, usfm (fst (convert text retries w)) = Some u) /\
    error (fst (convert text retries w)) = None) \/
   (success (fst (convert text retries w)) = false /\
    usfm (fst (convert text retries w)) = None /\
    (exists m, error (fst (convert text retries w)) = Some m))) /\
  (forall m w', try_block service apiKey origin E text w = (Throw (ErrorObject m), w') ->
     convert text retries w = (failure m, console_error (ErrorObject m) w')) /\
  (forall w', try_block service apiKey origin E text w = (Throw NotAnError, w') ->
     convert text retries w =
     (failure "An unknown error occurred", console_error NotAnError w')).
Proof.
  unfold convertToUSFM.
  destruct (try_block service apiKey origin E text w) as [[result | e] w1] eqn:Htry.
  - split; [|split; intros; discriminate].
    left. unfold try_block, lift, exec_then in Htry.
    destruct (requestCompletion service apiKey origin E text w) as [[v | e] w2];
      [|discriminate].
    destruct (validateUSFM E v) as [validated | e]; [|discriminate].
    injection Htry as <- _. cbn. eauto.
  - split; [|split].
    + right. cbn. eauto.
    + intros m w' H. injection H as -> ->. reflexivity.
    + intros w' H. injection H as -> ->. reflexivity.
Qed.

(** C5, amended. When the response has status 401 and its body parses to
    an object or an array, the conversion fails with "Invalid API key.
    Please check your OpenRouter API key.", whatever the members of that
    value. *)
Theorem status_401_reports_invalid_key
        (text : string) (retries : Z) (w : World ServiceState)
        (r : Response) (st : ServiceState) (data : JSON) (b : bool) :
  all_white_space text = false ->
  service (service_state w) (request text) = (Resolved r, st) ->
  status r = 401%Z ->
  json r = Normal data ->
  HasProperty data p_error = Some b ->
  fst (convert text retries w) =
  failure "Invalid API key. Please check your OpenRouter API key.".
Proof.
  intros Htext Hsvc Hs Hj Hp.
  rewrite (convertToUSFM_resolved_throw text retries w r st _ Htext Hsvc
             (readCompletion_401 E r data b Hs Hj Hp)).
  reflexivity.
Qed.

(** C6, amended. When the response has a success status and its body is
    an object or array without an [error] member in which
    [choices[0].message.content] is missing ([choices] absent or empty, no
    first choice, no [message], no [content]) or is a value that counts as
    false, the conversion fails with "Invalid API response format". *)
Theorem malformed_completion_rejected
        (text : string) (retries : Z) (w : World ServiceState)
        (r : Response) (st : ServiceState) (data : JSON) :
  all_white_space text = false ->
  service (service_state w) (request text) = (Resolved r, st) ->
  ok r = true ->
  json r = Normal data ->
  HasProperty data p_error = Some false ->
  ToBoolean (completion_content data) = false ->
  fst (convert text retries w) = failure "Invalid API response format".
Proof.
  intros Htext Hsvc Hok Hj Hp Hc.
  rewrite (convertToUSFM_resolved_throw text retries w r st _ Htext Hsvc
             (readCompletion_malformed E r data Hok Hj Hp Hc)).
  reflexivity.
Qed.

(** C7. The header check comes first: when the extracted text lacks a
    required marker, the conversion fails, whatever the marker pairs look
    like, with "Invalid USFM output: Missing required markers: " followed
    by the missing markers, separated by ", "; the markers listed are
    exactly the required markers that do not occur in the text. *)
Theorem missing_markers_reported
        (text : string) (retries : Z) (w : World ServiceState)
        (r : Response) (st : ServiceState) (convertedText : string) :
  all_white_space text = false ->
  service (service_state w) (request text) = (Resolved r, st) ->
  readCompletion E r = Normal (JString convertedText) ->
  (exists marker, In marker requiredMarkers /\ includes convertedText marker = false) ->
  fst (convert text retries w) =
    failure ("Invalid USFM output: Missing required markers: " ++
             join ", " (missingMarkers convertedText))%string /\
  (forall marker,
     In marker (missingMarkers convertedText) <->
     In marker requiredMarkers /\ includes convertedText marker = false).
Proof.
  intros Htext Hsvc Hread [marker Hmarker].
  split; [|apply missingMarkers_spec].
  rewrite (convertToUSFM_sent text retries w _ _ Htext Hsvc).
  rewrite Hread. cbn [and_then].
  rewrite validateUSFM_missing; [reflexivity|].
  apply missingMarkers_spec in Hmarker. intros Hnil. rewrite Hnil in Hmarker.
  exact Hmarker.
Qed.

(** C8, amended. For an input with a code unit that is not white space
    the conversion issues exactly one request, consults the service once,
    and returns the same result and world for every value of [retries]. *)
Theorem nonblank_input_single_request
        (text : string) (retries : Z) (w : World ServiceState) :
  all_white_space text = false ->
  requests (snd (convert text retries w)) = requests w ++ [request text] /\
  service_state (snd (convert text retries w)) =
    snd (service (service_state w) (request text)) /\
  (forall retries', convert text retries' w = convert text retries w).
Proof.
  intros Htext.
  destruct (service (service_state w) (request text)) as [outcome st] eqn:Hsvc.
  split; [|split; [|reflexivity]];
    rewrite (convertToUSFM_sent text retries w _ _ Htext Hsvc);
    destruct (match outcome with
              | Rejected e => Throw e
              | Resolved r => (v <- readCompletion E r ;; validateUSFM E v)%completion
              end); reflexivity.
Qed.

(** C9. Against a service whose answer to a request does not depend on
    its state, a second conversion of the same input, started in the world
    the first one left, returns the same result as the first. *)
Theorem convertToUSFM_deterministic
        (text : string) (retries : Z) (w : World ServiceState) :
  (forall st st' req, fst (service st req) = fst (service st' req)) ->
  fst (convert text retries (snd (convert text retries w))) =
  fst (convert text retries w).
Proof.
  intros Hdet.
  destruct (all_white_space text) eqn:Htext.
  - rewrite !convertToUSFM_blank by assumption. reflexivity.
  - set (w1 := snd (convert text retries w)).
    destruct (service (service_state w) (request text)) as [o st] eqn:Hsvc.
    destruct (service (service_state w1) (request text)) as [o1 st1] eqn:Hsvc1.
    assert (Ho : o1 = o).
    { pose proof (Hdet (service_state w1) (service_state w) (request text)) as H.
      rewrite Hsvc, Hsvc1 in H. exact H. }
    subst o1.
    rewrite (convertToUSFM_sent text retries w1 _ _ Htext Hsvc1).
    rewrite (convertToUSFM_sent text retries w _ _ Htext Hsvc).
    destruct (match o with
              | Rejected e => Throw e
              | Resolved r => (v <- readCompletion E r ;; validateUSFM E v)%completion
              end); reflexivity.
Qed.

(** C10, amended. When the response has a success status and its body is
    an object without an [error] member whose first choice has the empty
    string as message content, the conversion fails with "Invalid API
    response format", as it does when the content is absent. *)
Theorem empty_content_rejected
        (text : string) (retries : Z) (w : World ServiceState)
        (r : Response) (st : ServiceState) (data : JSON) :
  all_white_space text = false ->
  service (service_state w) (request text) = (Resolved r, st) ->
  ok r = true ->
  json r = Normal data ->
  HasProperty data p_error = Some false ->
  completion_content data = Some (JString EmptyString) ->
  fst (convert text retries w) = failure "Invalid API response format".
Proof.
  intros Htext Hsvc Hok Hj Hp Hc.
  assert (Hfalse : ToBoolean (completion_content data) = false)
    by (rewrite Hc; reflexivity).
  rewrite (convertToUSFM_resolved_throw text retries w r st _ Htext Hsvc
             (readCompletion_malformed E r data Hok Hj Hp Hfalse)).
  reflexivity.
Qed.

End ConverterFacts.

(** ** The conversion against the stub service *)

Section StubFacts.

Import JSString RegExp.

Example match_star_without_atom :
  String_match "abc" [mkTerm "x" true] = Some [EmptyString; EmptyString; EmptyString; EmptyString].
Proof. reflexivity. Qed.

Example match_star_run :
  String_match "axxb" [mkTerm "x" true] = Some [EmptyString; "xx"; EmptyString; EmptyString].
Proof. reflexivity. Qed.

Example match_star_whole :
  String_match "aaa" [mkTerm "a" true] = Some ["aaa"; EmptyString].
Proof. reflexivity. Qed.

Example match_char_absent :
  String_match "abc" [mkTerm "x" false] = None.
Proof. reflexivity. Qed.

Example match_literal :
  option_map (fun p => String_match "\esb note \esbe" p) (parse "\esb") =
  Some (Some ["esb"; "esb"]).
Proof. reflexivity. Qed.

(** C1, which the code does not meet. The plain document contains the
    three required markers and has as many open as close tokens of every
    pair (none of either), yet the conversion of a success response that
    carries it fails with "Invalid USFM output: Mismatched \f markers"
    instead of returning it. *)
Theorem plain_document_rejected :
  includes plain_document "\id" = true /\
  includes plain_document "\h" = true /\
  includes plain_document "\mt" = true /\
  literally_balanced plain_document = true /\
  fst (stub_convert (Resolved (json_response 200 (completion_body (JString plain_document))))
                    "In the beginning" 3) =
  failure "Invalid USFM output: Mismatched \f markers".
Proof. vm_compute. repeat split. Qed.

(** C2, which the code does not meet. On the plain document every open
    and close token occurs zero times, but the pair check counts matches
    of the token read as a pattern: no form feed for [\f], one empty match
    at each of the indices 0 to 89 for [\f*]; it fails citing the footnote
    pair. *)
Theorem pair_check_counts_pattern_matches :
  map (fun pair => (literal_occurrences (fst pair) plain_document,
                    literal_occurrences (snd pair) plain_document)) markerPairs =
    [(0, 0); (0, 0); (0, 0)] /\
  String.length plain_document = 89 /\
  option_map (match_count plain_document) (parse "\f") = Some 0 /\
  option_map (match_count plain_document) (parse "\f*") = Some 90 /\
  checkMarkerPairs stub_engine plain_document markerPairs =
    Throw (ErrorObject "Invalid USFM output: Mismatched \f markers").
Proof. vm_compute. repeat split. Qed.

(** Two footnote-open tokens and one footnote-close token do not make the
    footnote check fail when form feeds even out the two match counts; the
    failure then cites the cross-reference pair. *)
Lemma footnote_mismatch_masked_by_form_feeds :
  literal_occurrences "\f*" form_feed_document = 1 /\
  missingMarkers form_feed_document = [] /\
  option_map (match_count form_feed_document) (parse "\f") = Some 17 /\
  option_map (match_count form_feed_document) (parse "\f*") = Some 17 /\
  checkMarkerPairs stub_engine form_feed_document markerPairs =
    Throw (ErrorObject "Invalid USFM output: Mismatched \x markers").
Proof. vm_compute. repeat split. Qed.

End StubFacts.

(** ** Instances on the stub service *)

Section Instances.

Import JSString.

Lemma blank_input_fails_without_request_witness :
  all_white_space "   " = true /\
  fst (stub_convert (Resolved (json_response 200 no_choice_body)) "   " 3) =
    failure "Input text cannot be empty" /\
  requests (snd (stub_convert (Resolved (json_response 200 no_choice_body)) "   " 3)) = [] /\
  service_state (snd (stub_convert (Resolved (json_response 200 no_choice_body)) "   " 3)) = 0.
Proof.
  split; [reflexivity|].
  exact (blank_input_fails_without_request
           nat (stub_service (Resolved (json_response 200 no_choice_body)))
           "sk-or-test" "http://localhost:5173" stub_engine "   " 3%Z stub_world
           eq_refl).
Defined.

Lemma convertToUSFM_one_variant_witness :
  fst (stub_convert (Rejected (ErrorObject "Failed to fetch")) "notes" 3) =
  failure "Failed to fetch".
Proof.
  unfold stub_convert.
  rewrite (proj1 (proj2 (convertToUSFM_one_variant
                           nat (stub_service (Rejected (ErrorObject "Failed to fetch")))
                           "sk-or-test" "http://localhost:5173" stub_engine
                           "notes" 3%Z stub_world))
             "Failed to fetch"
             (sent (completion_request "sk-or-test" "http://localhost:5173" "notes") 1 stub_world)
             eq_refl).
  reflexivity.
Defined.

(** C5 as stated fails: with status 401 and a body that is not JSON,
    [response.json()] rejects before the status is looked at, and the
    failure carries the parser's message. *)
Lemma unparsable_401_reports_parse_error :
  status unparsable_401 = 401%Z /\
  fst (stub_convert (Resolved unparsable_401) "notes" 3) =
    failure "Unexpected end of JSON input" /\
  fst (stub_convert (Resolved unparsable_401) "notes" 3) <>
    failure "Invalid API key. Please check your OpenRouter API key.".
Proof. vm_compute. repeat split. discriminate. Qed.

Lemma status_401_reports_invalid_key_witness :
  fst (stub_convert (Resolved (json_response 401 unauthorized_body)) "notes" 3) =
  failure "Invalid API key. Please check your OpenRouter API key.".
Proof.
  exact (status_401_reports_invalid_key
           nat (stub_service (Resolved (json_response 401 unauthorized_body)))
           "sk-or-test" "http://localhost:5173" stub_engine "notes" 3%Z stub_world
           (json_response 401 unauthorized_body) 1 unauthorized_body true
           eq_refl eq_refl eq_refl eq_refl eq_refl).
Defined.

(** C6 as stated fails: with status 200, an empty [choices] array and an
    [error] member in the body, the error envelope is reported, not the
    malformed response. *)
Lemma envelope_without_choice_reports_envelope :
  ok (json_response 200 envelope_without_choice) = true /\
  Get envelope_without_choice p_choices = Some (JArray []) /\
  fst (stub_convert (Resolved (json_response 200 envelope_without_choice)) "notes" 3) =
    failure "Provider returned error" /\
  fst (stub_convert (Resolved (json_response 200 envelope_without_choice)) "notes" 3) <>
    failure "Invalid API response format".
Proof. vm_compute. repeat split. discriminate. Qed.

Lemma malformed_completion_rejected_witness :
  Get no_choice_body p_choices = Some (JArray []) /\
  fst (stub_convert (Resolved (json_response 200 no_choice_body)) "notes" 3) =
  failure "Invalid API response format".
Proof.
  split; [reflexivity|].
  exact (malformed_completion_rejected
           nat (stub_service (Resolved (json_response 200 no_choice_body)))
           "sk-or-test" "http://localhost:5173" stub_engine "notes" 3%Z stub_world
           (json_response 200 no_choice_body) 1 no_choice_body
           eq_refl eq_refl eq_refl eq_refl eq_refl eq_refl).
Defined.

Lemma missing_markers_reported_witness :
  fst (stub_convert (Resolved (json_response 200 (completion_body (JString "\h Genesis \p In the beginning"))))
                    "notes" 3) =
  failure "Invalid USFM output: Missing required markers: \id, \mt".
Proof.
  exact (proj1 (missing_markers_reported
           nat (stub_service (Resolved (json_response 200 (completion_body (JString "\h Genesis \p In the beginning")))))
           "sk-or-test" "http://localhost:5173" stub_engine "notes" 3%Z stub_world
           (json_response 200 (completion_body (JString "\h Genesis \p In the beginning")))
           1 "\h Genesis \p In the beginning"
           eq_refl eq_refl eq_refl
           (ex_intro _ "\id" (conj (or_introl eq_refl) eq_refl)))).
Defined.

(** C8 as stated fails: the input " " is not empty, and no request is
    issued for it. *)
Lemma space_input_issues_no_request :
  " " <> EmptyString /\
  String.length " " = 1 /\
  List.length (requests (snd (stub_convert (Resolved (json_response 200 no_choice_body)) " " 3))) = 0 /\
  service_state (snd (stub_convert (Resolved (json_response 200 no_choice_body)) " " 3)) = 0.
Proof. vm_compute. repeat split. discriminate. Qed.

Lemma nonblank_input_single_request_witness :
  requests (snd (stub_convert (Resolved (json_response 200 no_choice_body)) "notes" 3)) =
    [completion_request "sk-or-test" "http://localhost:5173" "notes"] /\
  service_state (snd (stub_convert (Resolved (json_response 200 no_choice_body)) "notes" 3)) = 1 /\
  (forall retries',
     stub_convert (Resolved (json_response 200 no_choice_body)) "notes" retries' =
     stub_convert (Resolved (json_response 200 no_choice_body)) "notes" 3).
Proof.
  exact (nonblank_input_single_request
           nat (stub_service (Resolved (json_response 200 no_choice_body)))
           "sk-or-test" "http://localhost:5173" stub_engine "notes" 3%Z stub_world
           eq_refl).
Defined.

Lemma convertToUSFM_deterministic_witness :
  fst (convertToUSFM (stub_service (Resolved (json_response 200 no_choice_body)))
         "sk-or-test" "http://localhost:5173" stub_engine "notes" 3
         (snd (stub_convert (Resolved (json_response 200 no_choice_body)) "notes" 3))) =
  fst (stub_convert (Resolved (json_response 200 no_choice_body)) "notes" 3).
Proof.
  exact (convertToUSFM_deterministic
           nat (stub_service (Resolved (json_response 200 no_choice_body)))
           "sk-or-test" "http://localhost:5173" stub_engine "notes" 3%Z stub_world
           (fun _ _ _ => eq_refl)).
Defined.

(** C10 as stated fails: with status 200, a first choice whose content is
    the empty string and an [error] member in the body, the error envelope
    is reported, not the malformed response. *)
Lemma envelope_with_empty_content_reports_envelope :
  ok (json_response 200 envelope_with_empty_content) = true /\
  completion_content envelope_with_empty_content = Some (JString EmptyString) /\
  fst (stub_convert (Resolved (json_response 200 envelope_with_empty_content)) "notes" 3) =
    failure "Provider returned error" /\
  fst (stub_convert (Resolved (json_response 200 envelope_with_empty_content)) "notes" 3) <>
    failure "Invalid API response format".
Proof. vm_compute. repeat split. discriminate. Qed.

Lemma empty_content_rejected_witness :
  completion_content (completion_body (JString EmptyString)) = Some (JString EmptyString) /\
  fst (stub_convert (Resolved (json_response 200 (completion_body (JString EmptyString)))) "notes" 3) =
  failure "Invalid API response format".
Proof.
  split; [reflexivity|].
  exact (empty_content_rejected
           nat (stub_service (Resolved (json_response 200 (completion_body (JString EmptyString)))))
           "sk-or-test" "http://localhost:5173" stub_engine "notes" 3%Z stub_world
           (json_response 200 (completion_body (JString EmptyString))) 1 (completion_body (JString EmptyString))
           eq_refl eq_refl eq_refl eq_refl eq_refl eq_refl).
Defined.

End Instances.

(* ================================================================= *)
(** * Further properties *)

(** ** The status switch *)

Section StatusSwitch.

Local Open Scope Z_scope.

Lemma status_switch_cases {A : Type} (st : Z) (a b c d e : A) :
  let chosen := match st with
                | 401 => a
                | 429 => b
                | 402 => c
                | 500 | 502 | 503 | 504 => d
                | _ => e
                end in
  chosen = a \/ chosen = b \/ chosen = c \/ chosen = d \/ chosen = e.
Proof.
  cbv zeta. destruct st as [|p|p]; auto 6.
  repeat (auto 6; destruct p as [p|p|]).
Qed.

Lemma status_switch_default {A : Type} (st : Z) (a b c d e : A) :
  ~ In st [401; 429; 402; 500; 502; 503; 504] ->
  match st with
  | 401 => a
  | 429 => b
  | 402 => c
  | 500 | 502 | 503 | 504 => d
  | _ => e
  end = e.
Proof.
  intros H. destruct st as [|p|p]; try reflexivity.
  repeat (try reflexivity; try (exfalso; apply H; simpl; tauto);
          destruct p as [p|p|]).
Qed.

End StatusSwitch.

(** ** More of the response classification *)

Section ClientExtras.

Variable E : Engine.

(** The branch taken when the status is not a success status or the body
    has an [error] member. *)
Lemma readCompletion_failed (r : Response) (data : JSON) (b : bool) :
  json r = Normal data ->
  HasProperty data p_error = Some b ->
  ok r = false \/ b = true ->
  readCompletion E r =
  match status r with
  | 401%Z => Throw (ErrorObject "Invalid API key. Please check your OpenRouter API key.")
  | 429%Z => Throw (ErrorObject "Rate limit exceeded. Please try again later.")
  | 402%Z => Throw (ErrorObject "Insufficient credits. Please check your OpenRouter account.")
  | 500%Z | 502%Z | 503%Z | 504%Z =>
      Throw (ErrorObject "OpenRouter API service error. Please try again later.")
  | _ => and_then (new_Error E (errorMessage_of b data)) (fun e => Throw e)
  end.
Proof.
  intros Hj Hp Hfailed. unfold readCompletion. rewrite Hj.
  cbn [and_then]. unfold js_in. rewrite Hp.
  destruct (ok r); cbn [negb and_then].
  - destruct Hfailed as [Hok | ->]; [discriminate | reflexivity].
  - reflexivity.
Qed.

Lemma readCompletion_failed_throws (r : Response) (data : JSON) (b : bool) :
  json r = Normal data ->
  HasProperty data p_error = Some b ->
  ok r = false \/ b = true ->
  exists e, readCompletion E r = Throw e.
Proof.
  intros Hj Hp Hfailed. rewrite (readCompletion_failed r data b Hj Hp Hfailed).
  pose proof (status_switch_cases (status r)
    (@Throw JSON (ErrorObject "Invalid API key. Please check your OpenRouter API key."))
    (Throw (ErrorObject "Rate limit exceeded. Please try again later."))
    (Throw (ErrorObject "Insufficient credits. Please check your OpenRouter account."))
    (Throw (ErrorObject "OpenRouter API service error. Please try again later."))
    (and_then (new_Error E (errorMessage_of b data)) (fun e => Throw e))) as H.
  cbv zeta in H.
  destruct H as [H|[H|[H|[H|H]]]]; rewrite H; eauto.
  destruct (new_Error E (errorMessage_of b data)); cbn; eauto.
Qed.

Lemma readCompletion_primitive (r : Response) (data : JSON) :
  json r = Normal data ->
  HasProperty data p_error = None ->
  readCompletion E r = Throw (ErrorObject (in_TypeError E "error" data)).
Proof.
  intros Hj Hp. unfold readCompletion. rewrite Hj.
  cbn [and_then]. unfold js_in. rewrite Hp.
  destruct (ok r); reflexivity.
Qed.

Lemma readCompletion_extracted (r : Response) (data v : JSON) :
  json r = Normal data ->
  ok r = true ->
  HasProperty data p_error = Some false ->
  HasProperty data p_choices = Some true ->
  completion_content data = Some v ->
  ToBoolean (Some v) = true ->
  readCompletion E r = Normal v.
Proof.
  intros Hj Hok Hp Hc Hv Ht. unfold readCompletion. rewrite Hj.
  cbn [and_then]. unfold js_in. rewrite Hok, Hp, Hc. cbn [negb and_then].
  rewrite Hv, Ht. reflexivity.
Qed.

End ClientExtras.

(** ** More of the conversion *)

Section ConverterExtras.

Import JSString.

Variable ServiceState : Type.
Variable service : ServiceState -> Request -> FetchOutcome * ServiceState.
Variables apiKey origin : string.
Variable E : Engine.

Local Abbreviation convert := (convertToUSFM service apiKey origin E).
Local Abbreviation request := (completion_request apiKey origin).

(** Every call ends in the [catch] clause: some value [e] is thrown in
    the [try] block, logged, and turned into the result. *)
Lemma convertToUSFM_caught (text : string) (retries : Z) (w : World ServiceState) :
  exists e w',
    try_block service apiKey origin E text w = (Throw e, w') /\
    convert text retries w = (failure (caught_message e), console_error e w').
Proof.
  unfold convertToUSFM.
  destruct (try_block service apiKey origin E text w) as [[result | e] w'] eqn:Htry.
  - exfalso. unfold try_block, lift, exec_then in Htry.
    destruct (requestCompletion service apiKey origin E text w) as [[v | e] w2];
      [|discriminate].
    destruct (validateUSFM_throws E v) as [m Hm]. rewrite Hm in Htry. discriminate.
  - exists e, w'. split; reflexivity.
Qed.

(** X1. With one of the statuses 401, 429, 402, 500, 502, 503 and 504 and
    a body that parses to an object or array, the status alone decides the
    error message; the members of the body play no part. *)
Theorem fixed_status_messages
        (text : string) (retries : Z) (w : World ServiceState)
        (r : Response) (st : ServiceState) (data : JSON) (b : bool) (m : string) :
  all_white_space text = false ->
  service (service_state w) (request text) = (Resolved r, st) ->
  json r = Normal data ->
  HasProperty data p_error = Some b ->
  In (status r, m)
     [ (401%Z, "Invalid API key. Please check your OpenRouter API key.");
       (429%Z, "Rate limit exceeded. Please try again later.");
       (402%Z, "Insufficient credits. Please check your OpenRouter account.");
       (500%Z, "OpenRouter API service error. Please try again later.");
       (502%Z, "OpenRouter API service error. Please try again later.");
       (503%Z, "OpenRouter API service error. Please try again later.");
       (504%Z, "OpenRouter API service error. Please try again later.") ] ->
  fst (convert text retries w) = failure m.
Proof.
  intros Htext Hsvc Hj Hp Hin.
  assert (Hread : readCompletion E r = Throw (ErrorObject m)).
  { assert (Hfailed : ok r = false \/ b = true).
    { left. unfold ok.
      simpl in Hin.
      repeat (destruct Hin as [Hin | Hin];
              [injection Hin as Hs _; rewrite <- Hs; reflexivity|]).
      contradiction. }
    rewrite (readCompletion_failed E r data b Hj Hp Hfailed).
    simpl in Hin.
    repeat (destruct Hin as [Hin | Hin];
            [injection Hin as Hs <-; rewrite <- Hs; reflexivity|]).
    contradiction. }
  rewrite (convertToUSFM_resolved_throw ServiceState service apiKey origin E
             text retries w r st _ Htext Hsvc Hread).
  reflexivity.
Qed.

(** X2. When the body has an [error] member whose [message] is a
    non-empty string and the status is none of 401, 429, 402, 500, 502,
    503, 504, the conversion fails with that message - under a success
    status as well, and whatever [choices] holds. *)
Theorem embedded_error_message_reported
        (text : string) (retries : Z) (w : World ServiceState)
        (r : Response) (st : ServiceState) (data : JSON) (c : ascii) (m : string) :
  all_white_space text = false ->
  service (service_state w) (request text) = (Resolved r, st) ->
  json r = Normal data ->
  HasProperty data p_error = Some true ->
  GetOptional (Get data p_error) p_message = Some (JString (String c m)) ->
  ~ In (status r) [401; 429; 402; 500; 502; 503; 504]%Z ->
  fst (convert text retries w) = failure (String c m).
Proof.
  intros Htext Hsvc Hj Hp Hm Hst.
  assert (Hread : readCompletion E r = Throw (ErrorObject (String c m))).
  { rewrite (readCompletion_failed E r data true Hj Hp (or_intror eq_refl)).
    rewrite status_switch_default by assumption.
    unfold errorMessage_of. rewrite Hm. reflexivity. }
  rewrite (convertToUSFM_resolved_throw ServiceState service apiKey origin E
             text retries w r st _ Htext Hsvc Hread).
  reflexivity.
Qed.


(** X4. When [fetch] rejects, the conversion fails with the message of
    the rejection (or "An unknown error occurred" when what is thrown is
    no [Error]); one request has been issued and the thrown value logged. *)
Theorem rejected_fetch_reported
        (text : string) (retries : Z) (w : World ServiceState)
        (e : Thrown) (st : ServiceState) :
  all_white_space text = false ->
  service (service_state w) (request text) = (Rejected e, st) ->
  convert text retries w =
  (failure (caught_message e), console_error e (sent (request text) st w)).
Proof.
  intros Htext Hsvc.
  rewrite (convertToUSFM_sent ServiceState service apiKey origin E text retries w _ _ Htext Hsvc).
  reflexivity.
Qed.

(** X5. When [response.json()] rejects, the conversion fails with the
    message of that rejection, whatever the status. *)
Theorem unparsable_body_reported
        (text : string) (retries : Z) (w : World ServiceState)
        (r : Response) (st : ServiceState) (e : Thrown) :
  all_white_space text = false ->
  service (service_state w) (request text) = (Resolved r, st) ->
  json r = Throw e ->
  fst (convert text retries w) = failure (caught_message e).
Proof.
  intros Htext Hsvc Hj.
  rewrite (convertToUSFM_resolved_throw ServiceState service apiKey origin E
             text retries w r st _ Htext Hsvc (readCompletion_unparsed E r e Hj)).
  reflexivity.
Qed.

(** X6. When the body parses to [null], a boolean, a number or a string,
    the conversion fails with the message of the TypeError that ['error'
    in data] raises, whatever the status - 401 included. *)
Theorem primitive_body_reported
        (text : string) (retries : Z) (w : World ServiceState)
        (r : Response) (st : ServiceState) (data : JSON) :
  all_white_space text = false ->
  service (service_state w) (request text) = (Resolved r, st) ->
  json r = Normal data ->
  HasProperty data p_error = None ->
  fst (convert text retries w) = failure (in_TypeError E "error" data).
Proof.
  intros Htext Hsvc Hj Hp.
  rewrite (convertToUSFM_resolved_throw ServiceState service apiKey origin E
             text retries w r st _ Htext Hsvc (readCompletion_primitive E r data Hj Hp)).
  reflexivity.
Qed.

(** X7. A text is extracted from a response exactly when the status is a
    success status and the body parses to a value that has no [error]
    member, satisfies the type guard [isOpenRouterResponse], and whose
    [choices?.[0]?.message?.content] counts as true; the text is that
    content. *)
Theorem completion_extracted_iff (r : Response) (v : JSON) :
  readCompletion E r = Normal v <->
  exists data,
    json r = Normal data /\
    ok r = true /\
    HasProperty data p_error = Some false /\
    isOpenRouterResponse E data = Normal true /\
    completion_content data = Some v /\
    ToBoolean (Some v) = true.
Proof.
  split.
  - intros H. destruct (json r) as [data | e] eqn:Hj;
      [|rewrite (readCompletion_unparsed E r e Hj) in H; discriminate].
    exists data. split; [reflexivity|].
    destruct (HasProperty data p_error) as [b|] eqn:Hp;
      [|rewrite (readCompletion_primitive E r data Hj Hp) in H; discriminate].
    assert (Hnot : ~ (ok r = false \/ b = true)).
    { intros Hfailed.
      destruct (readCompletion_failed_throws E r data b Hj Hp Hfailed) as [e He].
      rewrite He in H. discriminate. }
    destruct (ok r) eqn:Hok; [|exfalso; auto].
    destruct b; [exfalso; auto|].
    unfold readCompletion in H. rewrite Hj in H. cbn [and_then] in H.
    unfold js_in in H. rewrite Hok, Hp in H. cbn [negb and_then] in H.
    unfold isOpenRouterResponse, js_in.
    destruct (HasProperty data p_choices) as [[|]|]; cbn in H; try discriminate.
    destruct (ToBoolean (completion_content data)) eqn:Ht; cbn in H; [|discriminate].
    destruct (completion_content data) as [v'|]; [|discriminate].
    injection H as ->. repeat split; auto.
  - intros (data & Hj & Hok & Hp & Hg & Hv & Ht).
    unfold isOpenRouterResponse, js_in in Hg.
    destruct (HasProperty data p_choices) as [[|]|] eqn:Hc; try discriminate.
    now apply (readCompletion_extracted E r data v).
Qed.

(** What a call comes to, in one statement: a value is thrown and caught;
    the world is the one the call began in when the text is blank, and
    the one after a single request otherwise. *)
Lemma convertToUSFM_outcome (text : string) (retries : Z) (w : World ServiceState) :
  exists e w1,
    convert text retries w = (failure (caught_message e), console_error e w1) /\
    w1 = (if all_white_space text then w
          else sent (request text) (snd (service (service_state w) (request text))) w).
Proof.
  destruct (all_white_space text) eqn:Htext.
  - exists (ErrorObject "Input text cannot be empty"), w.
    split; [now apply convertToUSFM_blank | reflexivity].
  - destruct (service (service_state w) (request text)) as [outcome st] eqn:Hsvc.
    rewrite (convertToUSFM_sent ServiceState service apiKey origin E
               text retries w _ _ Htext Hsvc).
    destruct outcome as [e | r].
    + exists e, (sent (request text) st w). split; reflexivity.
    + destruct (readCompletion E r) as [v | e]; cbn [and_then].
      * destruct (validateUSFM_throws E v) as [m ->].
        exists (ErrorObject m), (sent (request text) st w). split; reflexivity.
      * exists e, (sent (request text) st w). split; reflexivity.
Qed.

(** X8. Every call writes exactly one entry to the console, after those
    already there: the value that was caught, whose message is the error
    of the result. *)
Theorem failure_logged_once (text : string) (retries : Z) (w : World ServiceState) :
  exists e,
    fst (convert text retries w) = failure (caught_message e) /\
    console (snd (convert text retries w)) = console w ++ [e].
Proof.
  destruct (convertToUSFM_outcome text retries w) as (e & w1 & Hc & Hw).
  exists e. rewrite Hc. split; [reflexivity|].
  subst w1. destruct (all_white_space text); reflexivity.
Qed.

(** X9. A text that reaches the pair check - extracted from the response
    and holding the three required markers - makes the conversion fail
    with "Mismatched \f markers" or "Mismatched \x markers": the check
    passes no text and never gets to the study-note pair. *)
Theorem validated_content_fails_pair_check
        (text : string) (retries : Z) (w : World ServiceState)
        (r : Response) (st : ServiceState) (convertedText : string) :
  all_white_space text = false ->
  service (service_state w) (request text) = (Resolved r, st) ->
  readCompletion E r = Normal (JString convertedText) ->
  missingMarkers convertedText = [] ->
  fst (convert text retries w) = failure "Invalid USFM output: Mismatched \f markers" \/
  fst (convert text retries w) = failure "Invalid USFM output: Mismatched \x markers".
Proof.
  intros Htext Hsvc Hread Hmissing.
  rewrite (convertToUSFM_sent ServiceState service apiKey origin E
             text retries w _ _ Htext Hsvc).
  rewrite Hread. cbn [and_then]. unfold validateUSFM. rewrite Hmissing.
  cbn [List.length Nat.ltb Nat.leb].
  destruct (checkMarkerPairs_throws E convertedText) as [H | H]; rewrite H;
    [left | right]; reflexivity.
Qed.

(** X10. A text without a form feed that reaches the pair check is
    rejected with "Mismatched \f markers", whatever markers it holds. *)
Theorem text_without_form_feed_rejected
        (text : string) (retries : Z) (w : World ServiceState)
        (r : Response) (st : ServiceState) (convertedText : string) :
  all_white_space text = false ->
  service (service_state w) (request text) = (Resolved r, st) ->
  readCompletion E r = Normal (JString convertedText) ->
  missingMarkers convertedText = [] ->
  count_char "012" convertedText = 0 ->
  fst (convert text retries w) = failure "Invalid USFM output: Mismatched \f markers".
Proof.
  intros Htext Hsvc Hread Hmissing Hff.
  rewrite (convertToUSFM_sent ServiceState service apiKey origin E
             text retries w _ _ Htext Hsvc).
  rewrite Hread. cbn [and_then]. unfold validateUSFM. rewrite Hmissing.
  cbn [List.length Nat.ltb Nat.leb]. unfold markerPairs.
  rewrite (checkMarkerPairs_cons E convertedText "\f" "\f*" _
             [RegExp.mkTerm "012" false] [RegExp.mkTerm "012" true])
    by reflexivity.
  rewrite match_count_char, Hff.
  pose proof (match_count_star "012" convertedText) as Hstar.
  destruct (match_count convertedText [RegExp.mkTerm "012" true]) as [|n] eqn:Hn;
    [lia | reflexivity].
Qed.

(** X11. When the extracted content is an array, the header check asks
    whether the markers are items of the array: the conversion fails
    listing the required markers that are not. *)
Theorem array_content_reports_missing_items
        (text : string) (retries : Z) (w : World ServiceState)
        (r : Response) (st : ServiceState) (items : list JSON) :
  all_white_space text = false ->
  service (service_state w) (request text) = (Resolved r, st) ->
  readCompletion E r = Normal (JArray items) ->
  (exists marker, In marker requiredMarkers /\ Array_includes items marker = false) ->
  fst (convert text retries w) =
  failure ("Invalid USFM output: Missing required markers: " ++
           join ", " (filter (fun marker => negb (Array_includes items marker))
                             requiredMarkers))%string.
Proof.
  intros Htext Hsvc Hread [marker [Hin Hnot]].
  rewrite (convertToUSFM_sent ServiceState service apiKey origin E
             text retries w _ _ Htext Hsvc).
  rewrite Hread. cbn [and_then]. unfold validateUSFM.
  assert (Hf : In marker (filter (fun marker => negb (Array_includes items marker))
                                 requiredMarkers)).
  { apply filter_In. split; [assumption | now rewrite Hnot]. }
  destruct (filter _ requiredMarkers) as [|m l]; [contradiction | reflexivity].
Qed.

End ConverterExtras.

(** ** More of the validator *)

Section ValidatorExtras.

Import JSString RegExp.

Variable E : Engine.

Lemma prefix_spec (sub s : string) :
  String.prefix sub s = true <-> exists post, s = (sub ++ post)%string.
Proof.
  revert s. induction sub as [|a sub IH]; intros s.
  - split; [intros _; exists s; reflexivity | intros _; destruct s; reflexivity].
  - destruct s as [|b s]; simpl.
    + split; [discriminate | intros [post H]; discriminate].
    + destruct (ascii_dec a b) as [-> | Hne].
      * rewrite IH. split; intros [post H]; exists post.
        -- now rewrite H.
        -- now injection H.
      * split; [discriminate | intros [post H]; injection H as H1 _; congruence].
Qed.

Lemma includes_unfold (s sub : string) :
  includes s sub =
  String.prefix sub s ||
  match s with
  | EmptyString => false
  | String _ s' => includes s' sub
  end.
Proof. destruct s; reflexivity. Qed.

(** [includes] is the presence of a substring. *)
Lemma includes_spec (s sub : string) :
  includes s sub = true <-> exists pre post, s = (pre ++ sub ++ post)%string.
Proof.
  split.
  - induction s as [|a s IH]; rewrite includes_unfold; intros H;
      apply orb_true_iff in H as [H | H].
    + apply prefix_spec in H as [post H]. exists EmptyString, post. exact H.
    + discriminate.
    + apply prefix_spec in H as [post H]. exists EmptyString, post. exact H.
    + destruct (IH H) as (pre & post & Hs).
      exists (String a pre), post. simpl. now rewrite Hs.
  - intros (pre & post & Hs). revert s Hs.
    induction pre as [|a pre IH]; intros s Hs; rewrite includes_unfold.
    + apply orb_true_iff. left. apply prefix_spec. exists post. exact Hs.
    + subst s. simpl. apply orb_true_iff. right. apply IH. reflexivity.
Qed.

(** X12. The header check passes exactly the texts in which each of \id,
    \h and \mt occurs somewhere as a substring - inside a longer marker
    or a word as well. *)
Theorem header_check_is_substring_presence (text : string) :
  missingMarkers text = [] <->
  forall marker, In marker requiredMarkers ->
                 exists pre post, text = (pre ++ marker ++ post)%string.
Proof.
  split.
  - intros Hnil marker Hin. apply includes_spec.
    destruct (includes text marker) eqn:Hinc; [reflexivity|].
    assert (H : In marker (missingMarkers text))
      by (apply missingMarkers_spec; auto).
    rewrite Hnil in H. contradiction.
  - intros Hall. destruct (missingMarkers text) as [|m l] eqn:Hm; [reflexivity|].
    assert (H : In m (missingMarkers text)) by (rewrite Hm; left; reflexivity).
    apply missingMarkers_spec in H as [Hin Hinc].
    apply Hall, includes_spec in Hin. congruence.
Qed.

Lemma run_starts_inside (c : ascii) (s : string) :
  run_starts c true s = run_starts c false (drop (leading c s) s).
Proof.
  induction s as [|a s IH]; [reflexivity|].
  simpl. destruct (Ascii.eqb a c) eqn:Hac; simpl.
  - exact IH.
  - rewrite Hac. reflexivity.
Qed.

Lemma match_loop_star_exact (c : ascii) (fuel : nat) :
  forall s, String.length s < fuel ->
  List.length (match_loop fuel [mkTerm c true] s) + count_char c s =
  String.length s + 1 + run_starts c false s.
Proof.
  induction fuel as [|fuel IH]; intros s Hfuel; [lia|].
  cbn [match_loop]. rewrite exec_star.
  destruct (leading_split c s) as [Hcount Hlen].
  destruct (leading c s) as [|n] eqn:Hlead.
  - cbn [Nat.eqb Nat.add drop].
    destruct s as [|a s]; [reflexivity|].
    simpl in Hlead. destruct (Ascii.eqb a c) eqn:Hac; [discriminate|].
    cbn [List.length String.length count_char run_starts]. rewrite Hac.
    specialize (IH s). simpl in Hfuel. lia.
  - cbn [Nat.eqb Nat.add List.length].
    assert (Hruns : run_starts c false s = S (run_starts c false (drop (S n) s))).
    { destruct s as [|a s]; [discriminate|].
      simpl in Hlead. destruct (Ascii.eqb a c) eqn:Hac; [|discriminate].
      injection Hlead as Hlead. cbn [run_starts drop]. rewrite Hac.
      rewrite run_starts_inside, Hlead. reflexivity. }
    specialize (IH (drop (S n) s)). lia.
Qed.

(** X13. What the two footnote patterns and the two cross-reference
    patterns count in a text: [\f] the form feeds and [\x] the letters x;
    [\f*] and [\x*] one match at each index that does not continue a run
    of that character - the end of the text included - so that matches
    plus occurrences make the length, plus one, plus the number of
    runs. *)
Theorem marker_pattern_counts (text : string) :
  option_map (match_count text) (parse "\f") = Some (count_char "012" text) /\
  option_map (match_count text) (parse "\x") = Some (count_char "x" text) /\
  (exists endCount,
     option_map (match_count text) (parse "\f*") = Some endCount /\
     endCount + count_char "012" text =
     String.length text + 1 + run_starts "012" false text) /\
  (exists endCount,
     option_map (match_count text) (parse "\x*") = Some endCount /\
     endCount + count_char "x" text =
     String.length text + 1 + run_starts "x" false text).
Proof.
  change (parse "\f") with (Some [mkTerm "012" false]).
  change (parse "\x") with (Some [mkTerm "x" false]).
  change (parse "\f*") with (Some [mkTerm "012" true]).
  change (parse "\x*") with (Some [mkTerm "x" true]).
  cbn [option_map]. rewrite !match_count_char.
  repeat split.
  - eexists. split; [reflexivity|].
    rewrite match_count_loop. apply match_loop_star_exact. lia.
  - eexists. split; [reflexivity|].
    rewrite match_count_loop. apply match_loop_star_exact. lia.
Qed.

(** X14. The pair check cites the footnote pair unless twice the number
    of form feeds is the length of the text, plus one, plus the number of
    runs of form feeds; in that case it cites the cross-reference pair. *)
Theorem pair_check_verdict (text : string) :
  (2 * count_char "012" text <>
     String.length text + 1 + run_starts "012" false text ->
   checkMarkerPairs E text markerPairs =
   Throw (ErrorObject "Invalid USFM output: Mismatched \f markers")) /\
  (2 * count_char "012" text =
     String.length text + 1 + run_starts "012" false text ->
   checkMarkerPairs E text markerPairs =
   Throw (ErrorObject "Invalid USFM output: Mismatched \x markers")).
Proof.
  pose proof (match_loop_star_exact "012" (S (String.length text)) text
                (Nat.lt_succ_diag_r _)) as Hstar.
  rewrite <- match_count_loop in Hstar.
  unfold markerPairs.
  rewrite (checkMarkerPairs_cons E text "\f" "\f*" _
             [mkTerm "012" false] [mkTerm "012" true]) by reflexivity.
  rewrite match_count_char.
  split; intros H.
  - destruct (Nat.eqb (count_char "012" text) _) eqn:Heq; [|reflexivity].
    apply Nat.eqb_eq in Heq. lia.
  - assert (Heq : Nat.eqb (count_char "012" text)
                          (match_count text [mkTerm "012" true]) = true)
      by (apply Nat.eqb_eq; lia).
    rewrite Heq.
    rewrite (checkMarkerPairs_cons E text "\x" "\x*" _
               [mkTerm "x" false] [mkTerm "x" true]) by reflexivity.
    rewrite match_count_char.
    destruct (Nat.eqb (count_char "x" text) _) eqn:Hx; [|reflexivity].
    exfalso. apply Nat.eqb_eq in Hx.
    pose proof (match_count_star "x" text) as Bx.
    assert (Hne : "012"%char <> "x"%char) by discriminate.
    pose proof (count_char_disjoint "012" "x" text Hne) as Bd.
    pose proof (count_char_le_length "012" text). lia.
Qed.

End ValidatorExtras.

(** ** The component *)

Section PageFacts.

Import JSString.

Variable ServiceState : Type.
Variable service : ServiceState -> Request -> FetchOutcome * ServiceState.
Variables apiKey origin : string.
Variable E : Engine.

Local Abbreviation convert := (convertToUSFM service apiKey origin E).
Local Abbreviation request := (completion_request apiKey origin).
Local Abbreviation step' := (step service apiKey origin E).
Local Abbreviation ui_step' := (ui_step service apiKey origin E).

Lemma convertToUSFM_requests (text : string) (retries : Z) (w : World ServiceState) :
  all_white_space text = false ->
  requests (snd (convert text retries w)) = requests w ++ [request text].
Proof.
  intros Htext.
  destruct (convertToUSFM_outcome ServiceState service apiKey origin E text retries w)
    as (e & w1 & Hc & Hw).
  rewrite Hc, Hw, Htext. reflexivity.
Qed.

(** The rest of [handleConvert] once the result is in: the result is a
    failure, so the output stays and an error toast is shown. *)
Lemma handleConvert_settle_fails (text : string) (p : Page ServiceState) :
  exists m,
    error (fst (convert text 3 (net p))) = Some m /\
    handleConvert_settle service apiKey origin E text p =
    toast (toast_error (match m with
                        | EmptyString => "Conversion failed"
                        | String _ _ => m
                        end))
          {| state := setIsProcessing false (state p);
             toasts := toasts p;
             pending := pending p;
             net := snd (convert text 3 (net p));
             clipboard := clipboard p;
             downloads := downloads p |}.
Proof.
  destruct (convertToUSFM_outcome ServiceState service apiKey origin E text 3 (net p))
    as (e & w1 & Hc & _).
  unfold handleConvert_settle. rewrite Hc. cbn.
  exists (caught_message e). split; [reflexivity|].
  destruct (caught_message e); reflexivity.
Qed.

(** X15. What a click on Convert comes to when nothing interrupts it.
    Input, output, clipboard and downloads are as before and exactly one
    error toast is added. On a blank input that is all: the processing
    flag and the service are not touched. Otherwise one request carrying
    the input is issued, the processing flag ends up cleared, and the
    toast shows the error of the conversion, or "Conversion failed" when
    that error is the empty string. *)
Theorem handleConvert_reports_failure (p : Page ServiceState) :
  input (state (handleConvert service apiKey origin E p)) = input (state p) /\
  output (state (handleConvert service apiKey origin E p)) = output (state p) /\
  clipboard (handleConvert service apiKey origin E p) = clipboard p /\
  downloads (handleConvert service apiKey origin E p) = downloads p /\
  (all_white_space (input (state p)) = true ->
   handleConvert service apiKey origin E p =
   toast (toast_error "Please enter some text to convert") p) /\
  (all_white_space (input (state p)) = false ->
   isProcessing (state (handleConvert service apiKey origin E p)) = false /\
   requests (net (handleConvert service apiKey origin E p)) =
     requests (net p) ++ [request (input (state p))] /\
   exists m,
     error (fst (convert (input (state p)) 3 (net p))) = Some m /\
     toasts (handleConvert service apiKey origin E p) =
     toasts p ++ [toast_error (match m with
                               | EmptyString => "Conversion failed"
                               | String _ _ => m
                               end)]).
Proof.
  unfold handleConvert. rewrite trim_empty_iff.
  destruct (all_white_space (input (state p))) eqn:Hblank.
  - do 4 (split; [reflexivity|]).
    split; [intros _; reflexivity | intros Hfalse; discriminate].
  - destruct (handleConvert_settle_fails (input (state p))
                (setState (setIsProcessing true) p)) as (m & Hm & Hsettle).
    rewrite Hsettle. cbn.
    do 4 (split; [reflexivity|]).
    split; [intros Hfalse; discriminate | intros _].
    split; [reflexivity|].
    split; [apply convertToUSFM_requests; exact Hblank|].
    exists m. split; [exact Hm | reflexivity].
Qed.

Lemma step_output_toasts (p : Page ServiceState) (e : Event) :
  output (state (step' p e)) = output (state p) /\
  (toasts (step' p e) = toasts p \/
   exists t, t <> toast_success "Conversion completed" /\
             toasts (step' p e) = toasts p ++ [t]).
Proof.
  destruct e as [value | file | | n | written | ]; cbn [step].
  - split; [reflexivity | left; reflexivity].
  - destruct file as [[value | thrown] | ]; cbn;
      (split; [reflexivity|]); try (left; reflexivity);
      right; eexists; (split; [|reflexivity]); discriminate.
  - unfold handleConvert_start.
    destruct (String.eqb (trim (input (state p))) EmptyString); cbn.
    + split; [reflexivity|]. right. eexists. split; [|reflexivity]. discriminate.
    + split; [reflexivity | left; reflexivity].
  - destruct (nth_error (pending p) n) as [text|];
      [|split; [reflexivity | left; reflexivity]].
    match goal with
    | |- context [handleConvert_settle _ _ _ _ text ?q] =>
        destruct (handleConvert_settle_fails text q) as (m & _ & ->)
    end.
    cbn. split; [reflexivity|]. right. eexists. split; [|reflexivity]. discriminate.
  - destruct written; cbn; (split; [reflexivity|]);
      right; eexists; (split; [|reflexivity]); discriminate.
  - cbn. split; [reflexivity|]. right. eexists. split; [|reflexivity]. discriminate.
Qed.

Lemma run_output_toasts (events : list Event) :
  forall p : Page ServiceState,
    output (state (fold_left step' events p)) = output (state p) /\
    (In (toast_success "Conversion completed") (toasts (fold_left step' events p)) ->
     In (toast_success "Conversion completed") (toasts p)).
Proof.
  induction events as [|e events IH]; intros p; cbn [fold_left].
  - split; auto.
  - destruct (IH (step' p e)) as [Hout Htoast].
    destruct (step_output_toasts p e) as [Hout1 Htoast1].
    split; [congruence|].
    intros H. apply Htoast in H.
    destruct Htoast1 as [Heq | (t & Hne & Heq)]; rewrite Heq in H; [exact H|].
    apply in_app_or in H as [H | [H | []]]; [exact H | congruence].
Qed.

(** X16. However the handlers of the component are run after mounting -
    edits, uploads, clicks on Convert, results arriving in any order,
    clicks on Copy and Download - the output editor stays empty, Copy and
    Download stay disabled and no "Conversion completed" toast is shown. *)
Theorem output_stays_empty (events : list Event) (w : World ServiceState) :
  output (state (fold_left step' events (mounted w))) = EmptyString /\
  copy_disabled (state (fold_left step' events (mounted w))) = true /\
  ~ In (toast_success "Conversion completed")
       (toasts (fold_left step' events (mounted w))).
Proof.
  destruct (run_output_toasts events (mounted w)) as [Hout Htoast].
  split; [exact Hout|]. split.
  - unfold copy_disabled. rewrite Hout. reflexivity.
  - intros H. exact (Htoast H).
Qed.

Local Abbreviation ui_invariant p :=
  (output (state p) = EmptyString /\
   clipboard p = None /\
   downloads p = [] /\
   ((isProcessing (state p) = false /\ pending p = []) \/
    (isProcessing (state p) = true /\
     exists text, pending p = [text] /\ all_white_space text = false))).

Lemma ui_step_invariant (p : Page ServiceState) (e : Event) :
  ui_invariant p -> ui_invariant (ui_step' p e).
Proof.
  intros (Hout & Hclip & Hdown & Hpending).
  unfold ui_step.
  destruct e as [value | file | | n | written | ]; cbn [enabled step].
  - cbn. auto.
  - destruct file as [[value | thrown] | ]; cbn; auto.
  - unfold convert_disabled. rewrite trim_empty_iff.
    destruct Hpending as [[Hproc Hpend] | [Hproc Hpend]]; rewrite Hproc; cbn [orb negb];
      [|auto 6].
    destruct (all_white_space (input (state p))) eqn:Hblank; cbn [negb]; [auto 6|].
    unfold handleConvert_start. rewrite trim_empty_iff, Hblank. cbn.
    rewrite Hpend. repeat split; auto.
    right. split; [reflexivity|]. exists (input (state p)). auto.
  - destruct Hpending as [[Hproc Hpend] | [Hproc (text & Hpend & Hblank)]];
      rewrite Hpend.
    + destruct n; cbn; rewrite Hpend; auto 6.
    + assert (Hsame : ui_invariant p).
      { repeat split; auto. right. split; [exact Hproc|]. exists text. auto. }
      destruct n as [|[|n]]; cbn [nth_error]; [|exact Hsame|exact Hsame].
      match goal with
      | |- context [handleConvert_settle _ _ _ _ text ?q] =>
          destruct (handleConvert_settle_fails text q) as (m & _ & ->)
      end.
      cbn. auto 6.
  - unfold copy_disabled. rewrite Hout. cbn. auto 6.
  - unfold copy_disabled. rewrite Hout. cbn. auto 6.
Qed.

Lemma ui_run_invariant (events : list Event) :
  forall p : Page ServiceState,
    ui_invariant p -> ui_invariant (fold_left ui_step' events p).
Proof.
  induction events as [|e events IH]; intros p Hp; cbn [fold_left]; [exact Hp|].
  apply IH, ui_step_invariant, Hp.
Qed.

Lemma mounted_invariant (w : World ServiceState) : ui_invariant (mounted w).
Proof. cbn. auto 6. Qed.

(** X17. Through the controls of the page - a disabled button takes no
    click - nothing is ever written to the clipboard and no file is ever
    handed to the browser for download. *)
Theorem nothing_copied_or_downloaded (events : list Event) (w : World ServiceState) :
  clipboard (fold_left ui_step' events (mounted w)) = None /\
  downloads (fold_left ui_step' events (mounted w)) = [].
Proof.
  destruct (ui_run_invariant events (mounted w) (mounted_invariant w))
    as (_ & Hclip & Hdown & _).
  split; assumption.
Qed.


End PageFacts.

(** ** App *)

Section AppFacts.

Lemma App_step_mirrors (a : AppState) (e : AppEvent) :
  app_apiKey (App_step a e) =
  getItem "openrouter_api_key" (localStorage (App_step a e)).
Proof. destruct e; reflexivity. Qed.

Lemma App_run_mirrors (events : list AppEvent) :
  forall a,
    app_apiKey a = getItem "openrouter_api_key" (localStorage a) ->
    app_apiKey (fold_left App_step events a) =
    getItem "openrouter_api_key" (localStorage (fold_left App_step events a)).
Proof.
  induction events as [|e events IH]; intros a Ha; cbn [fold_left]; [exact Ha|].
  apply IH, App_step_mirrors.
Qed.

(** X19. The key in the state of App is always the item stored under
    openrouter_api_key: after any sequence of submissions and logouts,
    mounting App again on the storage left behind starts with the key
    that was current. *)
Theorem reload_restores_key (events : list AppEvent) (s : Storage) :
  app_apiKey (App_mount (localStorage (fold_left App_step events (App_mount s)))) =
  app_apiKey (fold_left App_step events (App_mount s)).
Proof.
  symmetry. apply (App_run_mirrors events (App_mount s)). reflexivity.
Qed.

(** X20. Submissions and logouts touch no item of the storage other than
    openrouter_api_key. *)
Theorem other_items_untouched (events : list AppEvent) (s : Storage) (key : string) :
  key <> "openrouter_api_key" ->
  getItem key (localStorage (fold_left App_step events (App_mount s))) = getItem key s.
Proof.
  intros Hkey.
  change s with (localStorage (App_mount s)) at 2.
  generalize (App_mount s). clear s.
  induction events as [|e events IH]; intros a; cbn [fold_left]; [reflexivity|].
  rewrite IH.
  apply String.eqb_neq in Hkey.
  destruct e; cbn; unfold getItem, setItem, removeItem; rewrite Hkey; reflexivity.
Qed.

(** X21. After any sequence of submissions and logouts the converter is
    on screen, with key [k], exactly when [k] is the stored key and is
    not empty; otherwise the key form is - after submitting an empty key
    as after a logout. *)
Theorem converter_shown_iff (events : list AppEvent) (s : Storage) (k : string) :
  App_render (fold_left App_step events (App_mount s)) = USFMConverter_screen k <->
  getItem "openrouter_api_key" (localStorage (fold_left App_step events (App_mount s)))
    = Some k /\ k <> EmptyString.
Proof.
  rewrite <- (App_run_mirrors events (App_mount s) eq_refl).
  unfold App_render.
  destruct (app_apiKey (fold_left App_step events (App_mount s))) as [[|c k']|].
  - split; [discriminate | intros [H Hk]; injection H as <-; congruence].
  - split.
    + intros H. injection H as <-. split; [reflexivity | discriminate].
    + intros [H _]. injection H as <-. reflexivity.
  - split; [discriminate | intros [H _]; discriminate].
Qed.

End AppFacts.

(** ** Instances of the further properties on the stub service *)

Section ExtraInstances.

Import JSString.

Lemma fixed_status_messages_witness :
  fst (stub_convert (Resolved (json_response 429 unauthorized_body)) "notes" 3) =
  failure "Rate limit exceeded. Please try again later.".
Proof.
  exact (fixed_status_messages
           nat (stub_service (Resolved (json_response 429 unauthorized_body)))
           "sk-or-test" "http://localhost:5173" stub_engine "notes" 3%Z stub_world
           (json_response 429 unauthorized_body) 1 unauthorized_body true
           "Rate limit exceeded. Please try again later."
           eq_refl eq_refl eq_refl eq_refl (or_intror (or_introl eq_refl))).
Defined.

Lemma embedded_error_message_reported_witness :
  fst (stub_convert (Resolved (json_response 200 envelope_with_empty_content)) "notes" 3) =
  failure "Provider returned error".
Proof.
  apply (embedded_error_message_reported
           nat (stub_service (Resolved (json_response 200 envelope_with_empty_content)))
           "sk-or-test" "http://localhost:5173" stub_engine "notes" 3%Z stub_world
           (json_response 200 envelope_with_empty_content) 1 envelope_with_empty_content
           "P"%char "rovider returned error");
    try reflexivity.
  cbn. lia.
Defined.


Lemma rejected_fetch_reported_witness :
  fst (stub_convert (Rejected (ErrorObject "Failed to fetch")) "notes" 3) =
    failure "Failed to fetch" /\
  List.length (requests (snd (stub_convert (Rejected (ErrorObject "Failed to fetch")) "notes" 3))) = 1.
Proof.
  unfold stub_convert.
  rewrite (rejected_fetch_reported
             nat (stub_service (Rejected (ErrorObject "Failed to fetch")))
             "sk-or-test" "http://localhost:5173" stub_engine "notes" 3%Z stub_world
             (ErrorObject "Failed to fetch") 1 eq_refl eq_refl).
  split; reflexivity.
Defined.

Lemma unparsable_body_reported_witness :
  fst (stub_convert (Resolved unparsable_401) "notes" 3) =
  failure "Unexpected end of JSON input".
Proof.
  exact (unparsable_body_reported
           nat (stub_service (Resolved unparsable_401))
           "sk-or-test" "http://localhost:5173" stub_engine "notes" 3%Z stub_world
           unparsable_401 1 (ErrorObject "Unexpected end of JSON input")
           eq_refl eq_refl eq_refl).
Defined.

Lemma primitive_body_reported_witness :
  fst (stub_convert (Resolved (json_response 401 JNull)) "notes" 3) =
  failure "Cannot use 'in' operator to search for 'error'".
Proof.
  exact (primitive_body_reported
           nat (stub_service (Resolved (json_response 401 JNull)))
           "sk-or-test" "http://localhost:5173" stub_engine "notes" 3%Z stub_world
           (json_response 401 JNull) 1 JNull
           eq_refl eq_refl eq_refl eq_refl).
Defined.

Lemma validated_content_fails_pair_check_witness :
  fst (stub_convert (Resolved (json_response 200 (completion_body (JString form_feed_document))))
                    "notes" 3) =
    failure "Invalid USFM output: Mismatched \f markers" \/
  fst (stub_convert (Resolved (json_response 200 (completion_body (JString form_feed_document))))
                    "notes" 3) =
    failure "Invalid USFM output: Mismatched \x markers".
Proof.
  exact (validated_content_fails_pair_check
           nat (stub_service (Resolved (json_response 200 (completion_body (JString form_feed_document)))))
           "sk-or-test" "http://localhost:5173" stub_engine "notes" 3%Z stub_world
           (json_response 200 (completion_body (JString form_feed_document))) 1
           form_feed_document
           eq_refl eq_refl eq_refl eq_refl).
Defined.

Lemma text_without_form_feed_rejected_witness :
  fst (stub_convert (Resolved (json_response 200 (completion_body (JString "\id JHN \h John \mt John \x - \xo 3.16 \xt Rom 5.8\x*"))))
                    "notes" 3) =
  failure "Invalid USFM output: Mismatched \f markers".
Proof.
  exact (text_without_form_feed_rejected
           nat (stub_service (Resolved (json_response 200 (completion_body (JString "\id JHN \h John \mt John \x - \xo 3.16 \xt Rom 5.8\x*")))))
           "sk-or-test" "http://localhost:5173" stub_engine "notes" 3%Z stub_world
           (json_response 200 (completion_body (JString "\id JHN \h John \mt John \x - \xo 3.16 \xt Rom 5.8\x*"))) 1
           "\id JHN \h John \mt John \x - \xo 3.16 \xt Rom 5.8\x*"
           eq_refl eq_refl eq_refl eq_refl eq_refl).
Defined.

Lemma array_content_reports_missing_items_witness :
  fst (stub_convert (Resolved (json_response 200 (completion_body (JArray [JString "\id"; JString "\h GEN"]))))
                    "notes" 3) =
  failure "Invalid USFM output: Missing required markers: \h, \mt".
Proof.
  exact (array_content_reports_missing_items
           nat (stub_service (Resolved (json_response 200 (completion_body (JArray [JString "\id"; JString "\h GEN"])))))
           "sk-or-test" "http://localhost:5173" stub_engine "notes" 3%Z stub_world
           (json_response 200 (completion_body (JArray [JString "\id"; JString "\h GEN"]))) 1
           [JString "\id"; JString "\h GEN"]
           eq_refl eq_refl eq_refl
           (ex_intro _ "\mt" (conj (or_intror (or_intror (or_introl eq_refl))) eq_refl))).
Defined.

Lemma other_items_untouched_witness :
  getItem "theme"
    (localStorage (fold_left App_step [KeySubmitted "sk-or-test"; LoggedOut]
                             (App_mount (setItem "theme" "dark" (fun _ => None))))) =
  Some "dark".
Proof.
  apply (other_items_untouched [KeySubmitted "sk-or-test"; LoggedOut]
           (setItem "theme" "dark" (fun _ => None)) "theme").
  discriminate.
Defined.

End ExtraInstances.
